(** * Resume screening app: extraction, decoding, screening and rendering

    A shallow embedding of [app.py], [src/extract_text.py] and
    [src/resume_screening.py].  Python [str] values are sequences of Unicode
    code points, exceptions are explicit outcomes of a state-and-exception
    monad, the file system is a finite map from paths to stored files, and
    every call into Streamlit, the file system or the hosted model is
    recorded in a log carried by the state.  The libraries enter with the
    behaviour the script can meet: a document that cannot be read, a
    secrets file that is not there, a text [json.loads] rejects or cannot
    take within the interpreter's limits, a text Streamlit cannot encode. *)

From Stdlib Require Import NArith ZArith Ascii String List Bool Lia SpecFloat.
From stdpp Require Import base option list gmap strings.
Import ListNotations.

Set Default Proof Using "Type".
Set Warnings "-register-all".

(** * Python values and built-ins *)

Module Py.

(** A Python [str]: its code points, in order. *)
Definition str := list N.

(** An ASCII literal of the source, as a [str]. *)
Definition lit (s : string) : str :=
  map (fun a => N_of_ascii a) (list_ascii_of_string s).

Definition str_eqb (a b : str) : bool := bool_decide (a = b).

(** [bool(s)] for a [str]: the empty string is falsy. *)
Definition truthy_str (s : str) : bool :=
  match s with [] => false | _ :: _ => true end.

(** [c.isspace()] for one code point: the white-space table of CPython's
    [_PyUnicode_IsWhitespace]. *)
Definition isspace (c : N) : bool :=
  ((0x09 <=? c) && (c <=? 0x0D) || (0x1C <=? c) && (c <=? 0x20)
   || (c =? 0x85) || (c =? 0xA0) || (c =? 0x1680)
   || (0x2000 <=? c) && (c <=? 0x200A)
   || (c =? 0x2028) || (c =? 0x2029) || (c =? 0x202F) || (c =? 0x205F)
   || (c =? 0x3000))%N.

Fixpoint lstrip (s : str) : str :=
  match s with
  | [] => []
  | c :: s' => if isspace c then lstrip s' else s
  end.

Definition rstrip (s : str) : str := rev (lstrip (rev s)).

(** [s.strip()] with no argument. *)
Definition strip (s : str) : str := rstrip (lstrip s).

(** [s.startswith(p)]. *)
Fixpoint startswith (p s : str) : bool :=
  match p, s with
  | [], _ => true
  | _ :: _, [] => false
  | a :: p', b :: s' => (a =? b)%N && startswith p' s'
  end.

(** [s.endswith(p)]. *)
Definition endswith (s p : str) : bool := startswith (rev p) (rev s).

(** [s.replace(old, new)] for a non-empty [old]: the occurrences of [old]
    are found left to right without overlap.  [skip] counts the code points
    of an occurrence that are still to be dropped. *)
Fixpoint replace_from (old new : str) (skip : nat) (s : str) : str :=
  match s with
  | [] => []
  | c :: s' =>
      match skip with
      | S k => replace_from old new k s'
      | O =>
          if startswith old s
          then new ++ replace_from old new (length old - 1) s'
          else c :: replace_from old new 0 s'
      end
  end.

Definition replace (s old new : str) : str := replace_from old new 0 s.

(** [sep.join(parts)]. *)
Fixpoint join (sep : str) (parts : list str) : str :=
  match parts with
  | [] => []
  | [p] => p
  | p :: rest => p ++ sep ++ join sep rest
  end.

(** [s.lower()] on the ASCII letters.  The source only tests the lowered
    path against the suffixes [.docx] and [.pdf]; no code point outside
    [A-Z] lowers to one of [. d o c x p f], so the ASCII table decides
    those tests exactly as the full Unicode one does. *)
Definition lower_char (c : N) : N :=
  if ((0x41 <=? c) && (c <=? 0x5A))%N then (c + 0x20)%N else c.

Definition lower (s : str) : str := map lower_char s.

(** [os.path.splitext(p)[1]] (POSIX): the extension starts at the last dot
    of the last path component, unless only dots precede it there. *)
Fixpoint last_component (acc p : str) : str :=
  match p with
  | [] => acc
  | c :: p' => if (c =? 0x2F)%N then last_component p' p' else last_component acc p'
  end.

Fixpoint ext_of (seen_other : bool) (best : str) (name : str) : str :=
  match name with
  | [] => best
  | c :: name' =>
      if (c =? 0x2E)%N
      then ext_of seen_other (if seen_other then name else best) name'
      else ext_of true best name'
  end.

Definition splitext_ext (p : str) : str := ext_of false [] (last_component p p).

Definition nl : str := [0x0A%N].

(** A surrogate code point.  A [str] that holds one has no UTF-8 form:
    [s.encode('utf-8')] raises [UnicodeEncodeError]. *)
Definition is_surrogate (c : N) : bool := ((0xD800 <=? c) && (c <=? 0xDFFF))%N.

Definition encodable (s : str) : bool :=
  forallb (fun c => negb (is_surrogate c)) s.

End Py.

(** * Exceptions, JSON values and the effect monad *)

Module Eff.
Import Py.

(** The exception classes that occur in the three source files and in
    the library calls they make.  [StopException] is what [st.stop()]
    raises; it derives from [BaseException] only, so [except Exception]
    lets it through.  [LibraryError] stands for any [Exception] subclass
    raised inside python-docx, pypdf or the generative-AI client.
    [SecretNotFoundError] is Streamlit's [StreamlitSecretNotFoundError], a
    [FileNotFoundError]; [UnicodeEncodeError] is what handing Streamlit a
    text without a UTF-8 form raises; [RecursionError] and a plain
    [ValueError] are what [json.loads] raises at the interpreter's
    limits. *)
Inductive exn_class :=
| ValueError | JSONDecodeError | AttributeError | TypeError
| FileNotFoundError | LibraryError | PlainException | StopException
| UnicodeEncodeError | RecursionError | SecretNotFoundError.

#[global] Instance exn_class_eq_dec : EqDecision exn_class.
Proof. solve_decision. Defined.

(** An exception instance: its class and [str(e)]. *)
Record exn := Exn { exn_cls : exn_class; exn_str : str }.

(** An exception whose text a library composes (the position report of
    the JSON decoder or of a codec, the list of paths Streamlit searched
    for secrets).  Such texts are not modelled: the exception carries its
    class and an empty text. *)
Definition diagnostic (cls : exn_class) : exn := Exn cls [].

(** What Streamlit raises for a text it cannot encode: the
    [UnicodeEncodeError] of the UTF-8 codec, raised where the text is put
    into the protobuf message. *)
Definition unencodable : exn := diagnostic UnicodeEncodeError.

(** [isinstance(e, Exception)]. *)
Definition is_Exception (e : exn) : bool :=
  match exn_cls e with StopException => false | _ => true end.

(** [isinstance(e, json.JSONDecodeError)]. *)
Definition is_JSONDecodeError (e : exn) : bool :=
  match exn_cls e with JSONDecodeError => true | _ => false end.

(** What [json.loads] returns.  A JSON object is a [dict], kept as an
    association list in insertion order with one entry per key. *)
Inductive json :=
| JNull
| JBool (b : bool)
| JInt (z : Z)
| JFloat (f : spec_float)
| JStr (s : str)
| JList (items : list json)
| JDict (entries : list (str * json)).

(** The ways [json.loads] fails on a [str]. *)
Inductive loads_failure :=
| Malformed        (* json.JSONDecodeError: the text is not one JSON value *)
| Digits_exceeded  (* ValueError: an integer literal longer than [int] converts *)
| Depth_exceeded.  (* RecursionError: arrays and objects nested too deep *)

Definition loads_error (f : loads_failure) : exn :=
  diagnostic match f with
             | Malformed => JSONDecodeError
             | Digits_exceeded => ValueError
             | Depth_exceeded => RecursionError
             end.

(** Whether the text of a value, as [st.write(v)] or an f-string
    [f"{v}"] puts it on the page, has a UTF-8 form.  Only a value that is
    itself a [str] can lack one: the [repr] of the strings inside a list
    or a dict escapes surrogates, and [st.write] shows lists and dicts
    through [json.dumps], which escapes them too.  Formatting a number
    never fails: the one limit, on the digits of an [int], is the limit
    [json.loads] applied when it read the number. *)
Definition shows_encodable (v : json) : bool :=
  match v with JStr s => encodable s | _ => true end.

(** [d.get(key, default)] on the entries of a [dict]. *)
Fixpoint dict_get (d : list (str * json)) (key : str) (default : json) : json :=
  match d with
  | [] => default
  | (k, v) :: d' => if str_eqb k key then v else dict_get d' key default
  end.

(** [bool(v)]. *)
Definition truthy (v : json) : bool :=
  match v with
  | JNull => false
  | JBool b => b
  | JInt z => negb (z =? 0)%Z
  | JFloat f => match f with S754_zero _ => false | _ => true end
  | JStr s => truthy_str s
  | JList l => match l with [] => false | _ => true end
  | JDict d => match d with [] => false | _ => true end
  end.

(** [iter(v)]: the items a [for] loop visits, or [None] where Python raises
    [TypeError] because the value is not iterable. *)
Definition iterate (v : json) : option (list json) :=
  match v with
  | JList l => Some l
  | JStr s => Some (map (fun c => JStr [c]) s)
  | JDict d => Some (map (fun kv => JStr (fst kv)) d)
  | _ => None
  end.

(** A stored file, seen through the two document libraries: the texts of
    the paragraphs python-docx finds in it and the texts pypdf extracts
    from its pages, or [inl msg] where opening or reading it that way
    raises an exception [e] with [str(e) = msg]. *)
Record file := File {
  docx_paragraphs : str + list str;
  pdf_pages : str + list str
}.

(** The messages the interface shows, named after what they report; the
    exception carried is the [{e}] of the source's f-string. *)
Inductive message :=
| Init_failed (e : exn)        (* Failed to initialize model: {e} *)
| Load_failed                  (* Failed to load the resume screening model... *)
| Upload_both                  (* Please upload both a resume and a job description! *)
| Decode_failed                (* Could not decode job description file... *)
| Resume_text_empty            (* Failed to extract text from resume... *)
| Jd_empty                     (* Job description appears to be empty. *)
| Json_parse_failed (e : exn)  (* Failed to parse JSON from model output: {e} *)
| No_response                  (* No response received from the model. *)
| Api_failed (e : exn)         (* Error calling Gemini API: {e} *)
| Processing_failed (e : exn)  (* Error processing files: {e} *)
| Evaluation_complete.         (* Evaluation Complete! *)

(** The text of each message as the user reads it. *)
Definition message_text (m : message) : str :=
  match m with
  | Init_failed e => lit "Failed to initialize model: " ++ exn_str e
  | Load_failed =>
      [0x274C%N] ++ lit " Failed to load the resume screening model. Please check your API key in .env file."
  | Upload_both => lit "Please upload both a resume and a job description!"
  | Decode_failed =>
      [0x274C%N] ++ lit " Could not decode job description file. Please save it as UTF-8 encoded text file."
  | Resume_text_empty =>
      [0x274C%N] ++ lit " Failed to extract text from resume. Please check if the file is valid."
  | Jd_empty => [0x274C%N] ++ lit " Job description appears to be empty."
  | Json_parse_failed e =>
      [0x274C%N] ++ lit " Failed to parse JSON from model output: " ++ exn_str e
  | No_response => [0x274C%N] ++ lit " No response received from the model."
  | Api_failed e => [0x274C%N] ++ lit " Error calling Gemini API: " ++ exn_str e
  | Processing_failed e => [0x274C%N] ++ lit " Error processing files: " ++ exn_str e
  | Evaluation_complete => [0x2705%N] ++ lit " Evaluation Complete!"
  end.

(** Calls into Streamlit.  Where the source formats a parsed value into
    the text it shows ([f"{score}/100"], [f"• {skill}"]) the call carries
    the value. *)
Inductive st_call :=
| st_set_page_config
| st_title
| st_markdown (text : str)
| st_error (m : message)
| st_warning (m : message)
| st_success (m : message)
| st_file_uploader (label : str)
| st_button (label : str)
| st_spinner (text : str)
| st_columns (n : nat)
| st_metric (label : str) (score : json)
| st_subheader (text : str)
| st_write_value (v : json)
| st_write_bullet (skill : json)
| st_write (text : str)
| st_expander (label : str)
| st_json (v : json)
| st_code (text : str)
| st_sidebar.

(** What a run does to the outside world, in the order it does it. *)
Inductive event :=
| FsWrite (path : str)       (* the temporary file is created and written *)
| FsRead (path : str)        (* a document library opens the file *)
| FsUnlink (path : str)      (* [os.unlink] *)
| ApiRequest (prompt : str)  (* [model.generate_content(prompt)] *)
| Ui (c : st_call).

Inductive outcome (A : Type) :=
| Return (a : A)
| Raise (e : exn).
Arguments Return {A} a.
Arguments Raise {A} e.

(** A computation reads and updates the file system, appends to the log of
    events and either returns or raises. *)
Definition M (A : Type) : Type :=
  gmap str file -> outcome A * gmap str file * list event.

Definition ret {A} (a : A) : M A := fun fs => (Return a, fs, []).

Definition raise {A} (e : exn) : M A := fun fs => (Raise e, fs, []).

Definition bind {A B} (m : M A) (k : A -> M B) : M B :=
  fun fs =>
    match m fs with
    | (Return a, fs1, l1) =>
        match k a fs1 with (o, fs2, l2) => (o, fs2, l1 ++ l2) end
    | (Raise e, fs1, l1) => (Raise e, fs1, l1)
    end.

(** [try: m  except C as e: h e], where [catches] decides [isinstance(e, C)]. *)
Definition try_except {A} (m : M A) (catches : exn -> bool) (h : exn -> M A) : M A :=
  fun fs =>
    match m fs with
    | (Raise e, fs1, l1) =>
        if catches e
        then match h e fs1 with (o, fs2, l2) => (o, fs2, l1 ++ l2) end
        else (Raise e, fs1, l1)
    | r => r
    end.

Definition emit (ev : event) : M unit := fun fs => (Return tt, fs, [ev]).

(** Whether Streamlit takes the call: the texts it is to show go into a
    protobuf message, which takes only text with a UTF-8 form.  The score
    is shown as [f"{score}/100"] and a skill as [f"• {skill}"];
    [st.json] serialises the object with [json.dumps], which escapes
    whatever is not ASCII. *)
Definition st_accepts (c : st_call) : bool :=
  match c with
  | st_set_page_config | st_title | st_columns _ | st_json _ | st_sidebar => true
  | st_markdown text | st_file_uploader text | st_button text | st_spinner text
  | st_subheader text | st_write text | st_expander text | st_code text =>
      encodable text
  | st_error m | st_warning m | st_success m => encodable (message_text m)
  | st_metric label score => encodable label && shows_encodable score
  | st_write_value v | st_write_bullet v => shows_encodable v
  end.

(** A call into Streamlit: it is recorded when Streamlit takes it, and
    raises, with nothing shown, when it does not. *)
Definition st (c : st_call) : M unit :=
  if st_accepts c then emit (Ui c) else raise unencodable.

(** [st.stop()]. *)
Definition st_stop {A} : M A := raise (Exn StopException []).

(** [for x in xs: body x]. *)
Fixpoint for_each {A} (xs : list A) (body : A -> M unit) : M unit :=
  match xs with
  | [] => ret tt
  | x :: xs' => bind (body x) (fun _ => for_each xs' body)
  end.

(** [os.path.exists(p)]. *)
Definition os_path_exists (p : str) : M bool :=
  fun fs => (Return (bool_decide (is_Some (fs !! p))), fs, []).

(** [os.unlink(p)]. *)
Definition os_unlink (p : str) : M unit :=
  fun fs =>
    match fs !! p with
    | Some _ => (Return tt, delete p fs, [FsUnlink p])
    | None => (Raise (Exn FileNotFoundError p), fs, [])
    end.

(** The body of [with tempfile.NamedTemporaryFile(delete=False, ...) as f:
    f.write(data)]: afterwards the file [p] holds [data]. *)
Definition write_file (p : str) (data : file) : M unit :=
  fun fs => (Return tt, <[p := data]> fs, [FsWrite p]).

(** Opening [p] through a document library: [view] selects what that
    library makes of the stored file. *)
Definition open_with (view : file -> str + list str) (p : str) : M (list str) :=
  fun fs =>
    match fs !! p with
    | None => (Raise (Exn FileNotFoundError p), fs, [])
    | Some f =>
        match view f with
        | inl msg => (Raise (Exn LibraryError msg), fs, [FsRead p])
        | inr texts => (Return texts, fs, [FsRead p])
        end
    end.

Definition result_of {A} (r : outcome A * gmap str file * list event) : outcome A :=
  fst (fst r).
Definition fs_of {A} (r : outcome A * gmap str file * list event) : gmap str file :=
  snd (fst r).
Definition log_of {A} (r : outcome A * gmap str file * list event) : list event :=
  snd r.

End Eff.

Declare Scope eff_scope.
Delimit Scope eff_scope with eff.
Notation "'let*' x ':=' c 'in' k" := (Eff.bind c (fun x => k))
  (at level 10, x name, c at level 100, k at level 200) : eff_scope.
Notation "c ';;' k" := (Eff.bind c (fun _ => k))
  (at level 100, k at level 200, right associativity) : eff_scope.

(** * src/extract_text.py *)

Module ExtractText.
Import Py Eff.
Local Open Scope eff_scope.

Definition file_not_found : str := lit "File not found.".
Definition no_text_in_document : str := lit "No text found in document.".
Definition no_text_in_pdf : str := lit "No text found in PDF.".
Definition unsupported_format : str :=
  lit "Unsupported file format. Please use PDF or DOCX.".
Definition error_extracting (e : exn) : str :=
  lit "Error extracting text: " ++ exn_str e.

(** The text of a DOCX: the paragraphs with something other than white
    space, joined by newlines. *)
Definition docx_text (paragraphs : list str) : str :=
  join nl (List.filter (fun t => truthy_str (strip t)) paragraphs).

(** The text of a PDF: the non-empty page texts, joined by newlines. *)
Definition pdf_text (pages : list str) : str :=
  join nl (List.filter truthy_str pages).

Definition extract_text_from_file (file_path : str) : M str :=
  let* found := os_path_exists file_path in
  if negb found then ret file_not_found
  else
    try_except
      (if endswith (lower file_path) (lit ".docx") then
         let* paragraphs := open_with docx_paragraphs file_path in
         let text := docx_text paragraphs in
         ret (if truthy_str (strip text) then text else no_text_in_document)
       else if endswith (lower file_path) (lit ".pdf") then
         let* pages := open_with pdf_pages file_path in
         let full_text := pdf_text pages in
         ret (if truthy_str (strip full_text) then full_text else no_text_in_pdf)
       else ret unsupported_format)
      is_Exception
      (fun e => ret (error_extracting e)).

End ExtractText.

(** * The codecs behind [bytes.decode] *)

Module Codecs.
Import Py.

(** The five names of [encodings_to_try]. *)
Inductive encoding :=
| utf_8          (* 'utf-8' *)
| utf_8_sig      (* 'utf-8-sig' *)
| windows_1252   (* 'windows-1252' *)
| iso_8859_1     (* 'iso-8859-1' *)
| cp1252.        (* 'cp1252' *)

#[global] Instance encoding_eq_dec : EqDecision encoding.
Proof. solve_decision. Defined.

Definition between (lo hi b : N) : bool := ((lo <=? b) && (b <=? hi))%N.

(** The low six bits of a continuation byte. *)
Definition low6 (b : N) : N := N.land b 0x3F.

(** Strict UTF-8: the well-formed byte sequences of the Unicode standard
    (no overlong forms, no surrogates, nothing above U+10FFFF); [None] is
    [UnicodeDecodeError]. *)
Fixpoint utf8_decode (bs : list N) : option str :=
  match bs with
  | [] => Some []
  | b0 :: r0 =>
      if (b0 <? 0x80)%N then cons b0 <$> utf8_decode r0
      else match r0 with
      | [] => None
      | b1 :: r1 =>
          if between 0xC2 0xDF b0 then
            if between 0x80 0xBF b1
            then cons (N.lor (N.shiftl (N.land b0 0x1F) 6) (low6 b1)) <$> utf8_decode r1
            else None
          else match r1 with
          | [] => None
          | b2 :: r2 =>
              if between 0xE0 0xEF b0 then
                if between (if (b0 =? 0xE0)%N then 0xA0 else 0x80)
                           (if (b0 =? 0xED)%N then 0x9F else 0xBF) b1
                   && between 0x80 0xBF b2
                then cons (N.lor (N.shiftl (N.land b0 0x0F) 12)
                             (N.lor (N.shiftl (low6 b1) 6) (low6 b2)))
                       <$> utf8_decode r2
                else None
              else match r2 with
              | [] => None
              | b3 :: r3 =>
                  if between 0xF0 0xF4 b0
                     && between (if (b0 =? 0xF0)%N then 0x90 else 0x80)
                                (if (b0 =? 0xF4)%N then 0x8F else 0xBF) b1
                     && between 0x80 0xBF b2 && between 0x80 0xBF b3
                  then cons (N.lor (N.shiftl (N.land b0 0x07) 18)
                               (N.lor (N.shiftl (low6 b1) 12)
                                  (N.lor (N.shiftl (low6 b2) 6) (low6 b3))))
                         <$> utf8_decode r3
                  else None
              end
          end
      end
  end.

(** [utf-8-sig]: a leading byte-order mark EF BB BF is dropped. *)
Definition bom : list N := [0xEF; 0xBB; 0xBF]%N.

Definition utf8_sig_decode (bs : list N) : option str :=
  if startswith bom bs then utf8_decode (drop 3 bs) else utf8_decode bs.

(** Windows-1252: 0x80-0x9F map into general punctuation and Latin
    Extended; 0x81, 0x8D, 0x8F, 0x90 and 0x9D are undefined. *)
Definition cp1252_high : list (option N) :=
  [ Some 0x20AC; None;        Some 0x201A; Some 0x0192;
    Some 0x201E; Some 0x2026; Some 0x2020; Some 0x2021;
    Some 0x02C6; Some 0x2030; Some 0x0160; Some 0x2039;
    Some 0x0152; None;        Some 0x017D; None;
    None;        Some 0x2018; Some 0x2019; Some 0x201C;
    Some 0x201D; Some 0x2022; Some 0x2013; Some 0x2014;
    Some 0x02DC; Some 0x2122; Some 0x0161; Some 0x203A;
    Some 0x0153; None;        Some 0x017E; Some 0x0178 ]%N.

Definition cp1252_char (b : N) : option N :=
  if between 0x80 0x9F b
  then mjoin (cp1252_high !! N.to_nat (b - 0x80))
  else Some b.

Definition cp1252_decode (bs : list N) : option str := mapM cp1252_char bs.

(** ISO 8859-1: every byte is the code point of the same number. *)
Definition latin1_decode (bs : list N) : option str := Some bs.

(** [b.decode(enc)]: [None] stands for [UnicodeDecodeError]. *)
Definition bytes_decode (enc : encoding) (b : list Byte.byte) : option str :=
  let bs := map Byte.to_N b in
  match enc with
  | utf_8 => utf8_decode bs
  | utf_8_sig => utf8_sig_decode bs
  | windows_1252 | cp1252 => cp1252_decode bs
  | iso_8859_1 => latin1_decode bs
  end.

End Codecs.

(** * [json.loads] *)

Module Json.
Import Py Eff.

Definition is_ws (c : N) : bool :=
  ((c =? 0x20) || (c =? 0x09) || (c =? 0x0A) || (c =? 0x0D))%N.

Fixpoint skip_ws (s : str) : str :=
  match s with
  | c :: s' => if is_ws c then skip_ws s' else s
  | [] => []
  end.

Definition is_digit (c : N) : bool := ((0x30 <=? c) && (c <=? 0x39))%N.

(** The longest run of ASCII digits at the front of [s], and the rest. *)
Fixpoint span_digits (s : str) : str * str :=
  match s with
  | c :: s' =>
      if is_digit c then let '(d, r) := span_digits s' in (c :: d, r) else ([], s)
  | [] => ([], [])
  end.

Definition decimal (digits : str) : Z :=
  fold_left (fun acc c => (acc * 10 + Z.of_N (c - 0x30))%Z) digits 0%Z.

Definition hex_digit (c : N) : option N :=
  if is_digit c then Some (c - 0x30)%N
  else if ((0x61 <=? c) && (c <=? 0x66))%N then Some (c - 0x61 + 10)%N
  else if ((0x41 <=? c) && (c <=? 0x46))%N then Some (c - 0x41 + 10)%N
  else None.

(** The value [m * 10^e] as a binary64 float, rounded to nearest even (what
    [float(text)] yields for a decimal literal). *)
Definition float_of_decimal (negative : bool) (m e : Z) : spec_float :=
  match m with
  | Zpos p =>
      match e with
      | Zneg k =>
          SFdiv 53 1024 (S754_finite negative p 0)
                (S754_finite false (Pos.pow 10 k) 0)
      | _ => binary_round 53 1024 negative (p * Z.to_pos (10 ^ e))%positive 0
      end
  | _ => S754_zero negative
  end.

(** One code unit of a string literal; the flag tells whether it was
    written as a [\uXXXX] escape, since only those combine into surrogate
    pairs. *)
Fixpoint scan_units (s : str) : option (list (bool * N) * str) :=
  match s with
  | [] => None
  | c :: s' =>
      if (c =? 0x22)%N then Some ([], s')
      else if (c =? 0x5C)%N then
        match s' with
        | [] => None
        | e :: s'' =>
            if (e =? 0x75)%N then
              match s'' with
              | h1 :: h2 :: h3 :: h4 :: s4 =>
                  match hex_digit h1, hex_digit h2, hex_digit h3, hex_digit h4 with
                  | Some d1, Some d2, Some d3, Some d4 =>
                      let u := (((d1 * 16 + d2) * 16 + d3) * 16 + d4)%N in
                      (fun r => ((true, u) :: fst r, snd r)) <$> scan_units s4
                  | _, _, _, _ => None
                  end
              | _ => None
              end
            else
              let plain (u : N) :=
                (fun r => ((false, u) :: fst r, snd r)) <$> scan_units s'' in
              if ((e =? 0x22) || (e =? 0x5C) || (e =? 0x2F))%N then plain e
              else if (e =? 0x62)%N then plain 0x08%N
              else if (e =? 0x66)%N then plain 0x0C%N
              else if (e =? 0x6E)%N then plain 0x0A%N
              else if (e =? 0x72)%N then plain 0x0D%N
              else if (e =? 0x74)%N then plain 0x09%N
              else None
        end
      else if (c <=? 0x1F)%N then None
      else (fun r => ((false, c) :: fst r, snd r)) <$> scan_units s'
  end.

(** An escaped high surrogate directly followed by an escaped low surrogate
    is one code point. *)
Fixpoint join_surrogates (us : list (bool * N)) : str :=
  match us with
  | [] => []
  | (true, hi) :: rest =>
      match rest with
      | (true, lo) :: rest' =>
          if (Codecs.between 0xD800 0xDBFF hi && Codecs.between 0xDC00 0xDFFF lo)%bool
          then (0x10000 + (hi - 0xD800) * 0x400 + (lo - 0xDC00))%N :: join_surrogates rest'
          else hi :: join_surrogates rest
      | _ => hi :: join_surrogates rest
      end
  | (false, c) :: rest => c :: join_surrogates rest
  end.

(** The string literal whose opening quote has just been read. *)
Definition scan_string (s : str) : option (str * str) :=
  (fun r => (join_surrogates (fst r), snd r)) <$> scan_units s.

(** The longest integer literal [int] converts: the default of
    [sys.get_int_max_str_digits()]. *)
Definition max_str_digits : nat := 4300.

(** A number at the front of [s]: an integer part, then a fraction and an
    exponent where they are complete; an integer without either is an
    [int], anything else a [float].  [None]: no number starts here.  An
    integer with more than [max_str_digits] digits makes [int] raise
    [ValueError]; a [float] has no such limit. *)
Definition scan_number (s : str) : option (loads_failure + json * str) :=
  let '(negative, s0) :=
    match s with
    | 0x2D%N :: r => (true, r)
    | _ => (false, s)
    end in
  let '(int_digits, s1) :=
    match s0 with
    | 0x30%N :: r => ([0x30%N], r)
    | _ => span_digits s0
    end in
  match int_digits with
  | [] => None
  | _ :: _ =>
      let '(frac_digits, s2) :=
        match s1 with
        | 0x2E%N :: r =>
            match span_digits r with
            | ([], _) => ([], s1)
            | (d, r') => (d, r')
            end
        | _ => ([], s1)
        end in
      let '(exponent, s3) :=
        match s2 with
        | e :: r =>
            if ((e =? 0x65) || (e =? 0x45))%N then
              let '(exp_negative, r1) :=
                match r with
                | 0x2D%N :: r' => (true, r')
                | 0x2B%N :: r' => (false, r')
                | _ => (false, r)
                end in
              match span_digits r1 with
              | ([], _) => (None, s2)
              | (d, r') =>
                  (Some (if exp_negative then (- decimal d)%Z else decimal d), r')
              end
            else (None, s2)
        | [] => (None, s2)
        end in
      match frac_digits, exponent with
      | [], None =>
          if (max_str_digits <? length int_digits)%nat
          then Some (inl Digits_exceeded)
          else Some (inr (JInt (if negative then (- decimal int_digits)%Z
                                else decimal int_digits), s3))
      | _, _ =>
          let m := decimal (int_digits ++ frac_digits) in
          let e := (default 0%Z exponent - Z.of_nat (length frac_digits))%Z in
          Some (inr (JFloat (float_of_decimal negative m e), s3))
      end
  end.

(** [d[k] = v] on the entries of a [dict]. *)
Fixpoint dict_set (d : list (str * json)) (k : str) (v : json) : list (str * json) :=
  match d with
  | [] => [(k, v)]
  | (k', v') :: d' =>
      if str_eqb k' k then (k', v) :: d' else (k', v') :: dict_set d' k v
  end.

(** The scanner: one value at the front of [s] and the text after it, or
    how the scan fails.  [depth] is how many arrays and objects may still
    be entered, one inside the other, before the interpreter's recursion
    limit is hit.  [fuel] bounds the nesting and the number of members
    read; the length of the text is always enough. *)
Fixpoint scan_once (fuel depth : nat) (s : str) : loads_failure + json * str :=
  match fuel with
  | O => inl Malformed
  | S fuel' =>
      match s with
      | [] => inl Malformed
      | c :: s' =>
          if (c =? 0x22)%N then
            match scan_string s' with
            | Some (text, r) => inr (JStr text, r)
            | None => inl Malformed
            end
          else if (c =? 0x7B)%N then
            match depth with
            | O => inl Depth_exceeded
            | S depth' =>
                match skip_ws s' with
                | 0x7D%N :: r => inr (JDict [], r)
                | s1 => scan_members fuel' depth' s1 []
                end
            end
          else if (c =? 0x5B)%N then
            match depth with
            | O => inl Depth_exceeded
            | S depth' =>
                match skip_ws s' with
                | 0x5D%N :: r => inr (JList [], r)
                | s1 => scan_items fuel' depth' s1 []
                end
            end
          else if startswith (lit "null") s then inr (JNull, drop 4 s)
          else if startswith (lit "true") s then inr (JBool true, drop 4 s)
          else if startswith (lit "false") s then inr (JBool false, drop 5 s)
          else match scan_number s with
          | Some r => r
          | None =>
              if startswith (lit "NaN") s then inr (JFloat S754_nan, drop 3 s)
              else if startswith (lit "Infinity") s
              then inr (JFloat (S754_infinity false), drop 8 s)
              else if startswith (lit "-Infinity") s
              then inr (JFloat (S754_infinity true), drop 9 s)
              else inl Malformed
          end
      end
  end
with scan_members (fuel depth : nat) (s : str) (acc : list (str * json))
  : loads_failure + json * str :=
  match fuel with
  | O => inl Malformed
  | S fuel' =>
      match s with
      | 0x22%N :: s' =>
          match scan_string s' with
          | None => inl Malformed
          | Some (key, s1) =>
              match skip_ws s1 with
              | 0x3A%N :: s2 =>
                  match scan_once fuel' depth (skip_ws s2) with
                  | inl f => inl f
                  | inr (v, s3) =>
                      let acc' := dict_set acc key v in
                      match skip_ws s3 with
                      | 0x7D%N :: r => inr (JDict acc', r)
                      | 0x2C%N :: r => scan_members fuel' depth (skip_ws r) acc'
                      | _ => inl Malformed
                      end
                  end
              | _ => inl Malformed
              end
          end
      | _ => inl Malformed
      end
  end
with scan_items (fuel depth : nat) (s : str) (acc : list json)
  : loads_failure + json * str :=
  match fuel with
  | O => inl Malformed
  | S fuel' =>
      match scan_once fuel' depth s with
      | inl f => inl f
      | inr (v, s1) =>
          match skip_ws s1 with
          | 0x5D%N :: r => inr (JList (acc ++ [v]), r)
          | 0x2C%N :: r => scan_items fuel' depth (skip_ws r) (acc ++ [v])
          | _ => inl Malformed
          end
      end
  end.

(** [json.loads(s)] for a [str]: one value between optional white space.
    [depth] is the nesting the interpreter's recursion limit leaves room
    for at the call. *)
Definition loads (depth : nat) (s : str) : loads_failure + json :=
  match scan_once (2 * length s + 2) depth (skip_ws s) with
  | inr (v, rest) => match skip_ws rest with [] => inr v | _ => inl Malformed end
  | inl f => inl f
  end.

End Json.

(** * src/resume_screening.py *)

Module ResumeScreening.
Import Py Eff.
Local Open Scope eff_scope.

Definition dq : str := [0x22%N].

Definition key_missing : str :=
  concat [
    [0x274C%N]; lit " GEMINI_API_KEY not found! Please add it to Streamlit Secrets or .env file." ].

Definition both_required : str :=
  lit "Both resume text and job description text are required.".

Definition api_error_prefix : str := lit "Error generating content from Gemini API: ".

(** The three literal parts of the prompt's f-string, around
    [{job_description_text}] and [{resume_text}]. *)
Definition prompt_head : str :=
  concat [
    nl;
    lit "        You are an expert technical recruiter specializing in screening resumes for technology roles."; nl;
    lit "        Carefully analyze the candidate's resume against the given job description and provide a comprehensive evaluation."; nl;
    nl;
    lit "        **Job Description:**"; nl;
    lit "        ```"; nl;
    lit "        " ].

Definition prompt_middle : str :=
  concat [
    nl;
    lit "        ```"; nl;
    nl;
    lit "        **Candidate's Resume:**"; nl;
    lit "        ```"; nl;
    lit "        " ].

Definition prompt_tail : str :=
  concat [
    nl;
    lit "        ```"; nl;
    nl;
    lit "        Please provide your evaluation in the following JSON format (ensure valid JSON output):"; nl;
    lit "        {"; nl;
    lit "            "; dq; lit "score"; dq; lit ": [integer between 0-100 based on overall match],"; nl;
    lit "            "; dq; lit "summary"; dq; lit ": "; dq; lit "[2-3 sentence summary of the candidate's fit for this role]"; dq; lit ","; nl;
    lit "            "; dq; lit "matched_skills"; dq; lit ": ["; dq; lit "list of skills/technologies from resume that match job requirements"; dq; lit "],"; nl;
    lit "            "; dq; lit "missing_skills"; dq; lit ": ["; dq; lit "list of important skills/technologies mentioned in job description but missing from resume"; dq; lit "]"; nl;
    lit "        }"; nl;
    nl;
    lit "        Evaluation Criteria:"; nl;
    lit "        - Technical skills alignment with job requirements"; nl;
    lit "        - Relevant work experience and projects"; nl;
    lit "        - Educational background relevance"; nl;
    lit "        - Overall career progression and achievements"; nl;
    nl;
    lit "        Provide only the JSON response without any additional text or formatting."; nl;
    lit "        " ].

Definition build_prompt (resume_text job_description_text : str) : str :=
  prompt_head ++ job_description_text ++ prompt_middle ++ resume_text ++ prompt_tail.

(** Where the key is looked up: the Streamlit secrets file and the
    process environment (after [load_dotenv()]).  [secrets_toml] holds the
    entries of the secrets file, a mapping from names to strings, or
    [None] where Streamlit finds no secrets file at all. *)
Record settings := Settings {
  secrets_toml : option (gmap string str);
  environ : gmap string str
}.

(** The entries of the secrets file: none where there is no file. *)
Definition secrets (cfg : settings) : gmap string str :=
  default ∅ (secrets_toml cfg).

(** The hosted model, as the client library presents it:
    [generate_content(prompt)] followed by [response.text] either raises an
    exception [e] with [str(e) = msg] ([inl msg]) or yields the response
    text. *)
Definition hosted_model : Type := str -> str + str.

(** An instance of [ResumeScreeningModel]: its [api_key] and its [model]. *)
Record ResumeScreeningModel := Model {
  api_key : str;
  model : hosted_model
}.

(** [st.secrets.get("GEMINI_API_KEY", os.getenv("GEMINI_API_KEY"))].
    Any access to [st.secrets] first loads the secrets file, and raises
    [StreamlitSecretNotFoundError] ([inl]) where there is none: the value
    from the environment, though already computed as the default, is then
    not returned.  With a secrets file, [get] returns its entry, or the
    default where it has none. *)
Definition lookup_api_key (cfg : settings) : exn + option str :=
  match secrets_toml cfg with
  | None => inl (diagnostic SecretNotFoundError)
  | Some entries =>
      inr match entries !! "GEMINI_API_KEY"%string with
          | Some v => Some v
          | None => environ cfg !! "GEMINI_API_KEY"%string
          end
  end.

(** [ResumeScreeningModel.__init__]; [gemini] is what
    [genai.GenerativeModel('models/gemini-2.5-flash')] connects to. *)
Definition init (cfg : settings) (gemini : hosted_model) : M ResumeScreeningModel :=
  match lookup_api_key cfg with
  | inl e => raise e
  | inr (Some key) =>
      if truthy_str key then ret (Model key gemini)
      else raise (Exn ValueError key_missing)
  | inr None => raise (Exn ValueError key_missing)
  end.

(** [self.model.generate_content(prompt)] and [response.text]. *)
Definition generate_content (self : ResumeScreeningModel) (prompt : str) : M str :=
  fun fs =>
    match model self prompt with
    | inl msg => (Raise (Exn LibraryError msg), fs, [ApiRequest prompt])
    | inr text => (Return text, fs, [ApiRequest prompt])
    end.

Definition screen_resume (self : ResumeScreeningModel)
    (resume_text job_description_text : str) : M str :=
  if negb (truthy_str resume_text) || negb (truthy_str job_description_text)
  then raise (Exn ValueError both_required)
  else
    let prompt := build_prompt resume_text job_description_text in
    try_except
      (generate_content self prompt)
      is_Exception
      (fun e => raise (Exn PlainException (api_error_prefix ++ exn_str e))).

End ResumeScreening.

(** * app.py *)

Module App.
Import Py Eff Codecs ExtractText ResumeScreening.
Local Open Scope eff_scope.

(** The two library calls whose results the script branches on:
    [bytes.decode] ([None] is [UnicodeDecodeError]) and [json.loads]
    ([inl] tells which exception it raises). *)
Record runtime := Runtime {
  decode : encoding -> list Byte.byte -> option str;
  json_loads : str -> loads_failure + json
}.

(** CPython's codecs and JSON decoder, where the recursion limit leaves
    the decoder room for [nesting] levels of arrays and objects. *)
Definition interpreter (nesting : nat) : runtime :=
  Runtime bytes_decode (Json.loads nesting).

(** The interpreter at its default recursion limit of 1000, which bounds
    the nesting the decoder accepts from above: the frames in use at the
    call make the nesting it really accepts somewhat smaller. *)
Definition cpython : runtime := interpreter 1000.

(** An uploaded resume: its file name and what it holds. *)
Record upload := Upload {
  upload_name : str;
  upload_data : file
}.

(** What one run of the script is given: the settings, the hosted model,
    the state of the three widgets, and the name [tempfile] picks for the
    temporary file (without the suffix). *)
Record session := Session {
  config : settings;
  gemini : hosted_model;
  resume_file : option upload;
  jd_file : option (list Byte.byte);
  button_clicked : bool;
  tmp_name : str
}.

Definition page_title : str := [0x1F4C4%N] ++ lit " Resume Screening using Gemini LLM".
Definition intro_text : str :=
  lit "Upload a candidate's resume and a job description, and get an AI evaluation!".
Definition resume_uploader_label : str := lit "Upload Candidate Resume (PDF or DOCX)".
Definition jd_uploader_label : str := lit "Upload Job Description (TXT)".
Definition button_label : str := lit "Evaluate Resume".
Definition spinner_text : str := lit "Screening resume...".
Definition metric_label : str := lit "Match Score".
Definition summary_heading : str := [0x1F4DD%N] ++ lit " Summary".
Definition matched_heading : str := [0x2705%N] ++ lit " Matched Skills".
Definition missing_heading : str := [0x274C%N] ++ lit " Missing Skills".
Definition no_summary : str := lit "No summary available".
Definition no_matched_skills : str := lit "No matched skills found".
Definition no_missing_skills : str := lit "No missing skills identified".
Definition expander_label : str := [0x1F50D%N] ++ lit " View Raw JSON Response".
Definition raw_response_heading : str := lit "Raw Response:".
Definition instructions_heading : str := [0x1F4CB%N] ++ lit " Instructions".
Definition requirements_heading : str := [0x2699%N; 0xFE0F%N] ++ lit " Requirements".

Definition sidebar_instructions : str :=
  concat [
    nl;
    lit "    1. **Upload Resume**: PDF or DOCX format"; nl;
    lit "    2. **Upload Job Description**: TXT format"; nl;
    lit "    3. **Click Evaluate**: Get AI-powered screening results"; nl;
    lit "    "; nl;
    lit "    **Features:**"; nl;
    lit "    - Match score (0-100)"; nl;
    lit "    - Detailed summary"; nl;
    lit "    - Matched skills analysis"; nl;
    lit "    - Missing skills identification"; nl;
    lit "    " ].

Definition sidebar_requirements : str :=
  concat [
    nl;
    lit "    - Valid Gemini API key in `.env` file"; nl;
    lit "    - Resume in PDF or DOCX format"; nl;
    lit "    - Job description in TXT format"; nl;
    lit "    " ].

(** [load_model()]. *)
Definition load_model (ses : session) : M (option ResumeScreeningModel) :=
  try_except
    (let* model := init (config ses) (gemini ses) in ret (Some model))
    is_Exception
    (fun e => st (st_error (Init_failed e));; ret None).

Definition encodings_to_try : list encoding :=
  [utf_8; utf_8_sig; windows_1252; iso_8859_1; cp1252].

(** The decode loop: [jd_text] after the [for], [None] when every attempt
    raised [UnicodeDecodeError]. *)
Fixpoint decode_loop (rt : runtime) (encodings : list encoding)
    (jd_bytes : list Byte.byte) : option str :=
  match encodings with
  | [] => None
  | encoding :: rest =>
      match decode rt encoding jd_bytes with
      | Some jd_text => Some jd_text
      | None => decode_loop rt rest jd_bytes
      end
  end.

(** The cleaned response: every fence opening followed by [json] and a
    newline is removed, then every remaining fence, then the white space
    at both ends ([replace], [replace], [strip]). *)
Definition clean (result_text : str) : str :=
  strip (replace (replace result_text (lit "```json" ++ nl) []) (lit "```") []).

(** [type(v).__name__]. *)
Definition type_name (v : json) : str :=
  match v with
  | JNull => lit "NoneType"
  | JBool _ => lit "bool"
  | JInt _ => lit "int"
  | JFloat _ => lit "float"
  | JStr _ => lit "str"
  | JList _ => lit "list"
  | JDict _ => lit "dict"
  end.

(** [parsed_result.get(key, default)]: only a [dict] has [get]. *)
Definition get (parsed_result : json) (key : str) (default : json) : M json :=
  match parsed_result with
  | JDict d => ret (dict_get d key default)
  | v => raise (Exn AttributeError
                  (lit "'" ++ type_name v ++ lit "' object has no attribute 'get'"))
  end.

(** [if skills: for skill in skills: st.write(f"• {skill}")
     else: st.write(none_text)]. *)
Definition show_skills (skills : json) (none_text : str) : M unit :=
  if truthy skills then
    match iterate skills with
    | Some items => for_each items (fun skill => st (st_write_bullet skill))
    | None => raise (Exn TypeError
                       (lit "'" ++ type_name skills ++ lit "' object is not iterable"))
    end
  else st (st_write none_text).

(** Lines 97-132: what is shown once [json.loads] has returned. *)
Definition display (parsed_result : json) : M unit :=
  st (st_success Evaluation_complete);;
  st (st_columns 3);;
  let* score := get parsed_result (lit "score") (JInt 0) in
  st (st_metric metric_label score);;
  st (st_subheader summary_heading);;
  let* summary := get parsed_result (lit "summary") (JStr no_summary) in
  st (st_write_value summary);;
  st (st_columns 2);;
  st (st_subheader matched_heading);;
  let* matched_skills := get parsed_result (lit "matched_skills") (JList []) in
  show_skills matched_skills no_matched_skills;;
  st (st_subheader missing_heading);;
  let* missing_skills := get parsed_result (lit "missing_skills") (JList []) in
  show_skills missing_skills no_missing_skills;;
  st (st_expander expander_label);;
  st (st_json parsed_result).

(** [json.loads(s)] as a computation: it raises [json.JSONDecodeError]
    for a text that is not JSON, and [ValueError] or [RecursionError] at
    the interpreter's limits. *)
Definition loads (rt : runtime) (s : str) : M json :=
  match json_loads rt s with
  | inr v => ret v
  | inl f => raise (loads_error f)
  end.

(** Lines 92-137: the inner [try] with its [except json.JSONDecodeError]. *)
Definition postprocess (rt : runtime) (result_text : str) : M unit :=
  try_except
    (let clean_result := clean result_text in
     let* parsed_result := loads rt clean_result in
     display parsed_result)
    is_JSONDecodeError
    (fun e =>
       st (st_error (Json_parse_failed e));;
       st (st_subheader raw_response_heading);;
       st (st_code result_text)).

(** Lines 86-142: the evaluation inside the spinner. *)
Definition run_evaluation (rt : runtime) (resume_model : ResumeScreeningModel)
    (resume_text jd_text : str) : M unit :=
  st (st_spinner spinner_text);;
  try_except
    (let* result_text := screen_resume resume_model resume_text jd_text in
     if truthy_str result_text
     then postprocess rt result_text
     else st (st_error No_response))
    is_Exception
    (fun e => st (st_error (Api_failed e))).

(** The path of the temporary file:
    [NamedTemporaryFile(delete=False, suffix=os.path.splitext(name)[1])]. *)
Definition tmp_path (ses : session) (resume : upload) : str :=
  tmp_name ses ++ splitext_ext (upload_name resume).

(** Lines 49-145: the [else] branch of the handler, with both files
    present. *)
Definition process_files (rt : runtime) (ses : session)
    (resume_model : ResumeScreeningModel)
    (resume : upload) (jd_bytes : list Byte.byte) : M unit :=
  try_except
    (let tmp_resume_path := tmp_path ses resume in
     write_file tmp_resume_path (upload_data resume);;
     let* resume_text := extract_text_from_file tmp_resume_path in
     let* jd_text :=
       match decode_loop rt encodings_to_try jd_bytes with
       | Some jd_text => ret jd_text
       | None => st (st_error Decode_failed);; st_stop
       end in
     os_unlink tmp_resume_path;;
     if negb (truthy_str resume_text) || str_eqb (strip resume_text) []
     then st (st_error Resume_text_empty)
     else if negb (truthy_str jd_text) || str_eqb (strip jd_text) []
     then st (st_error Jd_empty)
     else run_evaluation rt resume_model resume_text jd_text)
    is_Exception
    (fun e => st (st_error (Processing_failed e))).

(** Lines 45-145: the body of [if st.button("Evaluate Resume")]. *)
Definition evaluate (rt : runtime) (ses : session)
    (resume_model : ResumeScreeningModel) : M unit :=
  match resume_file ses, jd_file ses with
  | Some resume, Some jd_bytes => process_files rt ses resume_model resume jd_bytes
  | _, _ => st (st_warning Upload_both)
  end.

(** Lines 148-167. *)
Definition sidebar : M unit :=
  st st_sidebar;;
  st (st_subheader instructions_heading);;
  st (st_markdown sidebar_instructions);;
  st (st_subheader requirements_heading);;
  st (st_markdown sidebar_requirements).

(** One run of the script, top to bottom. *)
Definition app (rt : runtime) (ses : session) : M unit :=
  let* resume_model := load_model ses in
  st st_set_page_config;;
  st st_title;;
  st (st_markdown intro_text);;
  match resume_model with
  | None => st (st_error Load_failed);; st_stop
  | Some resume_model =>
      st (st_file_uploader resume_uploader_label);;
      st (st_file_uploader jd_uploader_label);;
      st (st_button button_label);;
      (if button_clicked ses then evaluate rt ses resume_model else ret tt);;
      sidebar
  end.

(** A run starts from a file system and yields how the script ended, the
    file system it leaves and the log of what it did. *)
Definition run (rt : runtime) (ses : session) (fs : gmap str file)
  : outcome unit * gmap str file * list event :=
  app rt ses fs.

End App.

(** * The self-test of src/resume_screening.py *)

Module SelfTest.
Import Py Eff ResumeScreening.

Definition sample_resume : str :=
  lit "Python developer with 3 years experience in web development using Django and Flask.".

Definition sample_jd : str :=
  lit "Looking for a Python developer with Django experience for web application development.".

Definition initialized_line : str :=
  [0x2705%N] ++ lit " Resume Screening Model initialized successfully!".

Definition test_result_line : str := lit "Test result:".

(** [f"❌ Error: {e}"]. *)
Definition error_line (e : exn) : str :=
  [0x274C%N] ++ lit " Error: " ++ exn_str e.

(** [print(text)] on a standard output encoded as UTF-8: the line is
    written, or, for a text without a UTF-8 form, nothing is written and
    [UnicodeEncodeError] is raised. *)
Definition print (text : str) : outcome unit * list str :=
  if encodable text then (Return tt, [text]) else (Raise unencodable, []).

(** The [try] block of the self-test, lines 78-87.  Besides how it ends
    and the log of events, a run yields what it printed, one entry for
    each [print]. *)
Definition attempt (cfg : settings) (gemini : hosted_model) (fs : gmap str file)
  : outcome unit * list str * list event :=
  match init cfg gemini fs with
  | (Return resume_model, fs1, l1) =>
      match print initialized_line with
      | (Raise e, out1) => (Raise e, out1, l1)
      | (Return _, out1) =>
          match screen_resume resume_model sample_resume sample_jd fs1 with
          | (Return result, _, l2) =>
              match print test_result_line with
              | (Raise e, out2) => (Raise e, out1 ++ out2, l1 ++ l2)
              | (Return _, out2) =>
                  let '(o, out3) := print result in
                  (o, out1 ++ out2 ++ out3, l1 ++ l2)
              end
          | (Raise e, _, l2) => (Raise e, out1, l1 ++ l2)
          end
      end
  | (Raise e, _, l1) => (Raise e, [], l1)
  end.

(** The block under [if __name__ == "__main__":], lines 76-90: the [try]
    block and its [except Exception as e: print(f"❌ Error: {e}")]. *)
Definition main (cfg : settings) (gemini : hosted_model) (fs : gmap str file)
  : outcome unit * list str * list event :=
  match attempt cfg gemini fs with
  | (Raise e, out, log) =>
      if is_Exception e
      then let '(o, out') := print (error_line e) in (o, out ++ out', log)
      else (Raise e, out, log)
  | r => r
  end.

End SelfTest.

(** * Statements about the extractor *)

Module ExtractSpec.
Import Py Eff ExtractText.

(** The file at [p] is a DOCX that python-docx reads, with these paragraphs. *)
Definition valid_docx (fs : gmap str file) (p : str) (paragraphs : list str) : Prop :=
  exists f, fs !! p = Some f
    /\ endswith (lower p) (lit ".docx") = true
    /\ docx_paragraphs f = inr paragraphs.

(** The file at [p] is a PDF that pypdf reads, with these page texts. *)
Definition valid_pdf (fs : gmap str file) (p : str) (pages : list str) : Prop :=
  exists f, fs !! p = Some f
    /\ endswith (lower p) (lit ".docx") = false
    /\ endswith (lower p) (lit ".pdf") = true
    /\ pdf_pages f = inr pages.

(** The reading of the extractor that takes every valid file to its own
    text: a valid DOCX or PDF yields a non-empty string which is the text
    extracted from it. *)
Definition returns_extracted_text_of_every_valid_file : Prop :=
  forall (fs : gmap str file) (p : str) (texts : list str),
    (valid_docx fs p texts ->
       result_of (extract_text_from_file p fs) = Return (docx_text texts)
       /\ docx_text texts <> [])
    /\ (valid_pdf fs p texts ->
       result_of (extract_text_from_file p fs) = Return (pdf_text texts)
       /\ pdf_text texts <> []).

(** What the extractor returns, case by case. *)
Inductive extraction (fs : gmap str file) (p : str) : str -> Prop :=
| Missing :
    fs !! p = None ->
    extraction fs p file_not_found
| Docx_text paragraphs :
    valid_docx fs p paragraphs ->
    strip (docx_text paragraphs) <> [] ->
    extraction fs p (docx_text paragraphs)
| Docx_blank paragraphs :
    valid_docx fs p paragraphs ->
    strip (docx_text paragraphs) = [] ->
    extraction fs p no_text_in_document
| Pdf_text pages :
    valid_pdf fs p pages ->
    strip (pdf_text pages) <> [] ->
    extraction fs p (pdf_text pages)
| Pdf_blank pages :
    valid_pdf fs p pages ->
    strip (pdf_text pages) = [] ->
    extraction fs p no_text_in_pdf
| Unsupported f :
    fs !! p = Some f ->
    endswith (lower p) (lit ".docx") = false ->
    endswith (lower p) (lit ".pdf") = false ->
    extraction fs p unsupported_format
| Unreadable_docx f msg :
    fs !! p = Some f ->
    endswith (lower p) (lit ".docx") = true ->
    docx_paragraphs f = inl msg ->
    extraction fs p (error_extracting (Exn LibraryError msg))
| Unreadable_pdf f msg :
    fs !! p = Some f ->
    endswith (lower p) (lit ".docx") = false ->
    endswith (lower p) (lit ".pdf") = true ->
    pdf_pages f = inl msg ->
    extraction fs p (error_extracting (Exn LibraryError msg)).

(** An image-only PDF: two pages, no text on either. *)
Definition scanned_pdf : file := File (inl (lit "File is not a zip file")) (inr [[]; []]).

End ExtractSpec.

(** * Statements about the script *)

Module AppSpec.
Import Py Eff Codecs ExtractText ResumeScreening App.

(** The prompts sent to the hosted model during a run, in order. *)
Fixpoint api_requests (log : list event) : list str :=
  match log with
  | [] => []
  | ApiRequest prompt :: log' => prompt :: api_requests log'
  | _ :: log' => api_requests log'
  end.

(** The messages shown with [st.error] during a run, in order. *)
Fixpoint errors_shown (log : list event) : list message :=
  match log with
  | [] => []
  | Ui (st_error m) :: log' => m :: errors_shown log'
  | _ :: log' => errors_shown log'
  end.

(** What a run does to the file system, in order. *)
Fixpoint fs_trace (log : list event) : list event :=
  match log with
  | [] => []
  | Ui _ :: log' | ApiRequest _ :: log' => fs_trace log'
  | ev :: log' => ev :: fs_trace log'
  end.

(** A stretch of the log with nothing but calls into Streamlit. *)
Definition ui_only (log : list event) : Prop :=
  Forall (fun ev => exists c, ev = Ui c) log.

(** The calls that put the evaluation on the page. *)
Definition shows_result (ev : event) : bool :=
  match ev with
  | Ui (st_success _) | Ui (st_metric _ _) | Ui (st_write_value _)
  | Ui (st_write_bullet _) | Ui (st_json _) => true
  | _ => false
  end.

(** The events that neither reach the hosted model nor put the evaluation
    on the page. *)
Definition plain (ev : event) : bool :=
  match ev with
  | ApiRequest _ => false
  | _ => negb (shows_result ev)
  end.

(** How a list of skills is shown. *)
Definition bullets (items : list json) : list event :=
  map (fun skill => Ui (st_write_bullet skill)) items.


(** The page down to the heading of the matched skills. *)
Definition page_head (d : list (str * json)) : list event :=
  [ Ui (st_success Evaluation_complete);
    Ui (st_columns 3);
    Ui (st_metric metric_label (dict_get d (lit "score") (JInt 0)));
    Ui (st_subheader summary_heading);
    Ui (st_write_value (dict_get d (lit "summary") (JStr no_summary)));
    Ui (st_columns 2);
    Ui (st_subheader matched_heading) ].


(** What [show_skills] puts on the page for the value of a skill field
    when its loop runs to the end: one bullet for each item a truthy value
    yields, the text for no skills for a falsy one. *)
Definition skills_page (skills : json) (none_text : str) : list event :=
  if truthy skills
  then bullets (default [] (iterate skills))
  else [Ui (st_write none_text)].

(** The page for a parsed object, the four fields read with their
    defaults: the score, the summary, the matched and the missing skills,
    then the object itself as raw JSON. *)
Definition whole_page (d : list (str * json)) : list event :=
  page_head d
  ++ skills_page (dict_get d (lit "matched_skills") (JList [])) no_matched_skills
  ++ [ Ui (st_subheader missing_heading) ]
  ++ skills_page (dict_get d (lit "missing_skills") (JList [])) no_missing_skills
  ++ [ Ui (st_expander expander_label); Ui (st_json (JDict d)) ].

(** The items of a loop that are shown: those before the first one
    Streamlit does not take. *)
Fixpoint shown_items (items : list json) : list json :=
  match items with
  | [] => []
  | x :: items' => if shows_encodable x then x :: shown_items items' else []
  end.

(** The code points of a text before its first surrogate. *)
Fixpoint encodable_prefix (s : str) : str :=
  match s with
  | [] => []
  | c :: s' => if is_surrogate c then [] else c :: encodable_prefix s'
  end.

(** A call that is neither an error message nor the raw object. *)
Definition page_call (c : st_call) : bool :=
  match c with st_error _ | st_json _ => false | _ => true end.

(** A stretch of the log with such calls only. *)
Definition page_part (shown : list event) : Prop :=
  Forall (fun ev => exists c, ev = Ui c /\ page_call c = true) shown.

(** How [display] ends and what it has shown by then: the whole page; or
    part of it, where it broke off at a [get] on something that is not an
    object ([AttributeError]), at a skill field that cannot be iterated
    ([TypeError]) or at a text Streamlit does not take
    ([UnicodeEncodeError]). *)
Inductive displayed (parsed : json) : outcome unit -> list event -> Prop :=
| Whole_page d :
    parsed = JDict d ->
    displayed parsed (Return tt) (whole_page d)
| Broken_page e shown :
    In (exn_cls e) [AttributeError; TypeError; UnicodeEncodeError] ->
    encodable (exn_str e) = true ->
    page_part shown ->
    displayed parsed (Raise e) shown.

(** What follows the request to the hosted model, up to the end of the
    evaluation (lines 88-142): an error message when the call fails, the
    response is empty or [json.loads] raises; otherwise what [display]
    shows, with an error message after it when [display] broke off.  A
    message or a raw response that Streamlit does not take is not shown:
    the [except] clause around it shows the encoding error instead, and
    for the message of a failed call, which is shown in the outermost
    clause of the evaluation, the error leaves the evaluation. *)
Inductive answered (rt : runtime) (self : ResumeScreeningModel) (prompt : str)
  : outcome unit -> list event -> Prop :=
| Call_failed msg :
    model self prompt = inl msg ->
    encodable msg = true ->
    answered rt self prompt (Return tt)
      [Ui (st_error (Api_failed (Exn PlainException (api_error_prefix ++ msg))))]
| Call_failed_unshown msg :
    model self prompt = inl msg ->
    encodable msg = false ->
    answered rt self prompt (Raise unencodable) []
| Empty_response :
    model self prompt = inr [] ->
    answered rt self prompt (Return tt) [Ui (st_error No_response)]
| Unparsable text :
    model self prompt = inr text -> text <> [] ->
    json_loads rt (clean text) = inl Malformed ->
    encodable text = true ->
    answered rt self prompt (Return tt)
      [ Ui (st_error (Json_parse_failed (Exn JSONDecodeError [])));
        Ui (st_subheader raw_response_heading);
        Ui (st_code text) ]
| Unparsable_unshown text :
    model self prompt = inr text -> text <> [] ->
    json_loads rt (clean text) = inl Malformed ->
    encodable text = false ->
    answered rt self prompt (Return tt)
      [ Ui (st_error (Json_parse_failed (Exn JSONDecodeError [])));
        Ui (st_subheader raw_response_heading);
        Ui (st_error (Api_failed unencodable)) ]
| Decoder_limit text f :
    model self prompt = inr text -> text <> [] ->
    json_loads rt (clean text) = inl f ->
    f <> Malformed ->
    answered rt self prompt (Return tt)
      [Ui (st_error (Api_failed (loads_error f)))]
| Page_shown text parsed shown :
    model self prompt = inr text -> text <> [] ->
    json_loads rt (clean text) = inr parsed ->
    displayed parsed (Return tt) shown ->
    answered rt self prompt (Return tt) shown
| Page_broken text parsed e shown :
    model self prompt = inr text -> text <> [] ->
    json_loads rt (clean text) = inr parsed ->
    displayed parsed (Raise e) shown ->
    answered rt self prompt (Return tt) (shown ++ [Ui (st_error (Api_failed e))]).

(** What the outermost [except] clause of the handler (line 144) adds
    when the evaluation ends in an exception. *)
Definition rescued (o : outcome unit) : list event :=
  match o with
  | Return _ => []
  | Raise e => [Ui (st_error (Processing_failed e))]
  end.

(** A text with nothing but white space in it, as the handler tests it:
    [not text or text.strip() == ''], the empty string. *)
Definition blank (text : str) : bool :=
  negb (truthy_str text) || str_eqb (strip text) [].

(** How the handler goes once both files are there.  The temporary file
    is written and read; then the job description either fails to decode
    (the run stops there), or the file is removed and the job description
    turns out blank, or the evaluation runs; an exception that leaves the
    evaluation is shown by the outermost [except] clause. *)
Inductive processed (rt : runtime) (self : ResumeScreeningModel)
    (fs : gmap str file) (p : str) (data : file) (jd_bytes : list Byte.byte)
  : outcome unit -> gmap str file -> list event -> Prop :=
| Undecodable resume_text reads :
    extract_text_from_file p (<[p := data]> fs)
      = (Return resume_text, <[p := data]> fs, reads) ->
    decode_loop rt encodings_to_try jd_bytes = None ->
    processed rt self fs p data jd_bytes
      (Raise (Exn StopException [])) (<[p := data]> fs)
      (FsWrite p :: reads ++ [Ui (st_error Decode_failed)])
| Blank_jd resume_text reads jd_text :
    extract_text_from_file p (<[p := data]> fs)
      = (Return resume_text, <[p := data]> fs, reads) ->
    decode_loop rt encodings_to_try jd_bytes = Some jd_text ->
    blank jd_text = true ->
    processed rt self fs p data jd_bytes
      (Return tt) (delete p fs)
      (FsWrite p :: reads ++ [FsUnlink p; Ui (st_error Jd_empty)])
| Evaluated resume_text reads jd_text o tail :
    extract_text_from_file p (<[p := data]> fs)
      = (Return resume_text, <[p := data]> fs, reads) ->
    decode_loop rt encodings_to_try jd_bytes = Some jd_text ->
    blank resume_text = false ->
    blank jd_text = false ->
    answered rt self (build_prompt resume_text jd_text) o tail ->
    processed rt self fs p data jd_bytes
      (Return tt) (delete p fs)
      (FsWrite p :: reads
       ++ FsUnlink p :: Ui (st_spinner spinner_text)
          :: ApiRequest (build_prompt resume_text jd_text) :: tail ++ rescued o).

(** What the script has shown when it stops because the model could not
    be set up. *)
Definition startup_failure (e : exn) : list event :=
  [ Ui (st_error (Init_failed e));
    Ui st_set_page_config;
    Ui st_title;
    Ui (st_markdown intro_text);
    Ui (st_error Load_failed) ].

(** What every run with a model shows before the handler. *)
Definition page_top : list event :=
  [ Ui st_set_page_config;
    Ui st_title;
    Ui (st_markdown intro_text);
    Ui (st_file_uploader resume_uploader_label);
    Ui (st_file_uploader jd_uploader_label);
    Ui (st_button button_label) ].

Definition page_sidebar : list event :=
  [ Ui st_sidebar;
    Ui (st_subheader instructions_heading);
    Ui (st_markdown sidebar_instructions);
    Ui (st_subheader requirements_heading);
    Ui (st_markdown sidebar_requirements) ].

(** The key [init] finds is usable. *)
Definition key_found (ses : session) (key : str) : Prop :=
  lookup_api_key (config ses) = inr (Some key) /\ key <> [].

(** No usable key: none in either store, or an empty one. *)
Definition key_missing_in (ses : session) : Prop :=
  lookup_api_key (config ses) = inr None
  \/ lookup_api_key (config ses) = inr (Some []).

(** Why [init] raises [e]: there is no secrets file, or there is one and
    no usable key. *)
Definition init_fails (ses : session) (e : exn) : Prop :=
  (secrets_toml (config ses) = None /\ e = diagnostic SecretNotFoundError)
  \/ (key_missing_in ses /\ e = Exn ValueError key_missing).

(** One run of the script, case by case: no model; no click; a click
    without both files; a click with both files, where the handler either
    stops the script or returns and the sidebar follows. *)
Inductive ran (rt : runtime) (ses : session) (fs : gmap str file)
  : outcome unit -> gmap str file -> list event -> Prop :=
| No_model e :
    init_fails ses e ->
    ran rt ses fs (Raise (Exn StopException [])) fs (startup_failure e)
| Idle key :
    key_found ses key ->
    button_clicked ses = false ->
    ran rt ses fs (Return tt) fs (page_top ++ page_sidebar)
| Files_missing key :
    key_found ses key ->
    button_clicked ses = true ->
    resume_file ses = None \/ jd_file ses = None ->
    ran rt ses fs (Return tt) fs
      (page_top ++ Ui (st_warning Upload_both) :: page_sidebar)
| Stopped key resume jd_bytes e fs' log :
    key_found ses key ->
    button_clicked ses = true ->
    resume_file ses = Some resume ->
    jd_file ses = Some jd_bytes ->
    processed rt (Model key (gemini ses)) fs (tmp_path ses resume)
      (upload_data resume) jd_bytes (Raise e) fs' log ->
    ran rt ses fs (Raise e) fs' (page_top ++ log)
| Finished key resume jd_bytes fs' log :
    key_found ses key ->
    button_clicked ses = true ->
    resume_file ses = Some resume ->
    jd_file ses = Some jd_bytes ->
    processed rt (Model key (gemini ses)) fs (tmp_path ses resume)
      (upload_data resume) jd_bytes (Return tt) fs' log ->
    ran rt ses fs (Return tt) fs' (page_top ++ log ++ page_sidebar).

(** A session in which the handler runs with both files: a usable key, a
    click, a resume and a job description. *)
Record screening (ses : session) (resume : upload) (jd_bytes : list Byte.byte)
  : Prop := Screening {
  screening_key : exists key, key_found ses key;
  screening_click : button_clicked ses = true;
  screening_resume : resume_file ses = Some resume;
  screening_jd : jd_file ses = Some jd_bytes
}.

(** A sample session: an empty secrets file and a key in the
    environment, a one-page PDF resume, a UTF-8 job description and a
    click; the hosted model answers with [response]. *)
Definition sample_resume : upload :=
  Upload (lit "cv.pdf")
    (File (inl (lit "File is not a zip file")) (inr [lit "Python developer, Django"])).

Definition sample_jd : list Byte.byte :=
  [Byte.x50; Byte.x79; Byte.x74; Byte.x68; Byte.x6f; Byte.x6e].

Definition sample_settings : settings :=
  Settings (Some ∅) {[ "GEMINI_API_KEY"%string := lit "secret" ]}.

(** The settings of local development: the key in [.env], no secrets
    file. *)
Definition env_only_settings : settings :=
  Settings None {[ "GEMINI_API_KEY"%string := lit "secret" ]}.

Definition sample_session (response : str + str) : session :=
  Session sample_settings (fun _ => response) (Some sample_resume)
    (Some sample_jd) true (lit "/tmp/tmpk3x9").

(** A response of the hosted model in the shape the prompt asks for,
    inside a code fence, and the object it parses to. *)
Definition sample_response : str :=
  concat [
    lit "```json"; nl;
    lit "{"; dq; lit "score"; dq; lit ": 85, ";
    dq; lit "summary"; dq; lit ": "; dq; lit "Strong match"; dq; lit ", ";
    dq; lit "matched_skills"; dq; lit ": ["; dq; lit "Python"; dq; lit ", ";
    dq; lit "Django"; dq; lit "], ";
    dq; lit "missing_skills"; dq; lit ": []}"; nl;
    lit "```" ].



Definition off_scale_response : str :=
  concat [ lit "{"; dq; lit "score"; dq; lit ": 150}" ].

(** A session whose resume is an image-only PDF. *)
Definition scanned_session : session :=
  Session sample_settings (fun _ => inr sample_response)
    (Some (Upload (lit "scan.pdf") ExtractSpec.scanned_pdf))
    (Some sample_jd) true (lit "/tmp/tmpk3x9").

(** [p] occurs somewhere in [s]. *)
Fixpoint occurs (p s : str) : bool :=
  startswith p s || match s with [] => false | _ :: s' => occurs p s' end.

Definition fence : str := lit "```".

Definition backtick : N := 0x60%N.



Definition is_text (v : json) : bool :=
  match v with JStr _ => true | _ => false end.

Definition is_list_of_text (v : json) : bool :=
  match v with JList items => forallb is_text items | _ => false end.

(** The evaluation record of the data model: exactly the four fields, an
    integer score from 0 to 100, a text summary, two lists of strings. *)
Definition is_evaluation_record (v : json) : bool :=
  match v with
  | JDict d =>
      (length d =? 4)%nat
      && match dict_get d (lit "score") JNull with
         | JInt z => (0 <=? z)%Z && (z <=? 100)%Z
         | _ => false
         end
      && is_text (dict_get d (lit "summary") JNull)
      && is_list_of_text (dict_get d (lit "matched_skills") JNull)
      && is_list_of_text (dict_get d (lit "missing_skills") JNull)
  | _ => false
  end.

(** The reading of the data model that makes every result put on the page
    such a record. *)
Definition renders_only_evaluation_records (rt : runtime) : Prop :=
  forall (result_text : str) (fs : gmap str file) (v : json),
    In (Ui (st_json v)) (log_of (postprocess rt result_text fs)) ->
    is_evaluation_record v = true.

End AppSpec.

(** * Statements about file names *)

Module NameSpec.

(** A code point other than the path separator, and one other than the
    dot that starts an extension. *)
Definition no_slash (c : N) : bool := negb (c =? 0x2F)%N.
Definition no_dot (c : N) : bool := negb (c =? 0x2E)%N.

End NameSpec.

(** * Facts about the built-ins *)

Module PyFacts.
Import Py.

Lemma truthy_str_true (s : str) : truthy_str s = true <-> s <> [].
Proof. destruct s; simpl; split; congruence. Qed.

Lemma truthy_str_false (s : str) : truthy_str s = false <-> s = [].
Proof. destruct s; simpl; split; congruence. Qed.

Lemma str_eqb_eq (a b : str) : str_eqb a b = true <-> a = b.
Proof. unfold str_eqb. apply bool_decide_eq_true. Qed.

Lemma str_eqb_neq (a b : str) : str_eqb a b = false <-> a <> b.
Proof. unfold str_eqb. apply bool_decide_eq_false. Qed.

(** [lstrip] keeps everything from the first code point that is not white
    space. *)
Lemma lstrip_keeps (s : str) (c : N) :
  In c s -> isspace c = false -> In c (lstrip s).
Proof.
  induction s as [|a s IH]; simpl; [tauto|].
  intros [->|Hin] Hc.
  - rewrite Hc. now left.
  - destruct (isspace a); [auto | now right].
Qed.

Lemma rstrip_keeps (s : str) (c : N) :
  In c s -> isspace c = false -> In c (rstrip s).
Proof.
  intros Hin Hc. unfold rstrip.
  apply in_rev. rewrite rev_involutive.
  apply lstrip_keeps; [|exact Hc]. now apply in_rev in Hin.
Qed.

Lemma strip_keeps (s : str) (c : N) :
  In c s -> isspace c = false -> In c (strip s).
Proof.
  intros Hin Hc. unfold strip. apply rstrip_keeps; [|exact Hc].
  now apply lstrip_keeps.
Qed.

(** A string that starts with something other than white space is not
    blank. *)
Lemma strip_cons_nonblank (c : N) (s : str) :
  isspace c = false -> strip (c :: s) <> [].
Proof.
  intros Hc Hnil.
  assert (Hin : In c (strip (c :: s))) by (apply strip_keeps; [now left | exact Hc]).
  rewrite Hnil in Hin. exact Hin.
Qed.

Lemma startswith_cons (a b : N) (p s : str) :
  startswith (a :: p) (b :: s) = (a =? b)%N && startswith p s.
Proof. reflexivity. Qed.

End PyFacts.

(** * Facts about the codecs *)

Module CodecFacts.
Import Py Codecs App PyFacts.

(** A byte string that starts with the byte-order mark decodes as UTF-8
    exactly when what follows the mark does; the mark becomes U+FEFF. *)
Lemma utf8_decode_bom (bs : list N) :
  startswith bom bs = true ->
  utf8_decode bs = cons 0xFEFF%N <$> utf8_decode (drop 3 bs).
Proof.
  unfold bom. intros H.
  destruct bs as [|b0 bs]; [discriminate|]. rewrite startswith_cons in H.
  apply andb_true_iff in H as [H0 H]. apply N.eqb_eq in H0. subst b0.
  destruct bs as [|b1 bs]; [discriminate|]. rewrite startswith_cons in H.
  apply andb_true_iff in H as [H1 H]. apply N.eqb_eq in H1. subst b1.
  destruct bs as [|b2 bs]; [discriminate|]. rewrite startswith_cons in H.
  apply andb_true_iff in H as [H2 _]. apply N.eqb_eq in H2. subst b2.
  reflexivity.
Qed.

(** [utf-8-sig] decodes nothing that [utf-8] does not: it is never the
    first encoding of the list to succeed. *)
Lemma utf8_sig_needs_utf8 (bs : list N) :
  utf8_decode bs = None -> utf8_sig_decode bs = None.
Proof.
  unfold utf8_sig_decode. destruct (startswith bom bs) eqn:Hbom; [|auto].
  rewrite (utf8_decode_bom bs Hbom).
  destruct (utf8_decode (drop 3 bs)); [discriminate | reflexivity].
Qed.

(** With CPython's codecs the loop always yields a text: the UTF-8 one
    when the bytes are UTF-8, else the Windows-1252 one when every byte is
    defined there, else the ISO 8859-1 one.  The entries [utf-8-sig] and
    [cp1252] never decide. *)
Lemma cpython_decode_loop (jd_bytes : list Byte.byte) :
  let bs := map Byte.to_N jd_bytes in
  decode_loop cpython encodings_to_try jd_bytes
  = Some match utf8_decode bs with
         | Some text => text
         | None =>
             match cp1252_decode bs with
             | Some text => text
             | None => bs
             end
         end.
Proof.
  intros bs. unfold encodings_to_try, cpython. simpl. fold bs.
  destruct (utf8_decode bs) eqn:Hutf8; [reflexivity|].
  rewrite (utf8_sig_needs_utf8 bs Hutf8).
  destruct (cp1252_decode bs); reflexivity.
Qed.

End CodecFacts.

(** * Facts about [extract_text_from_file] *)

Module ExtractFacts.
Import Py Eff ExtractText ExtractSpec PyFacts.

(** How a run of the extractor goes: it returns, leaves the file system as
    it was, opens the file at most once, and its result is one of the
    cases of [extraction]. *)
Lemma extract_run (fs : gmap str file) (p : str) :
  exists text reads,
    extract_text_from_file p fs = (Return text, fs, reads)
    /\ (reads = [] \/ reads = [FsRead p])
    /\ extraction fs p text.
Proof.
  unfold extract_text_from_file, bind, try_except, os_path_exists, open_with, ret.
  destruct (fs !! p) as [f|] eqn:Hf; simpl.
  2:{ exists file_not_found, []. split; [reflexivity|]. split; [now left|].
      now constructor. }
  destruct (endswith (lower p) (lit ".docx")) eqn:Hdocx.
  - rewrite Hf.
    destruct (docx_paragraphs f) as [msg|paragraphs] eqn:Hview; simpl.
    + eexists _, _. split; [reflexivity|]. split; [now right|].
      eapply Unreadable_docx; eauto.
    + eexists _, _. split; [reflexivity|]. split; [now right|].
      destruct (truthy_str (strip (docx_text paragraphs))) eqn:Ht.
      * apply Docx_text; [exists f; auto | now apply truthy_str_true].
      * eapply Docx_blank; [exists f; eauto | now apply truthy_str_false].
  - destruct (endswith (lower p) (lit ".pdf")) eqn:Hpdf.
    + rewrite Hf.
      destruct (pdf_pages f) as [msg|pages] eqn:Hview; simpl.
      * eexists _, _. split; [reflexivity|]. split; [now right|].
        eapply Unreadable_pdf; eauto.
      * eexists _, _. split; [reflexivity|]. split; [now right|].
        destruct (truthy_str (strip (pdf_text pages))) eqn:Ht.
        -- apply Pdf_text; [exists f; auto | now apply truthy_str_true].
        -- eapply Pdf_blank; [exists f; eauto | now apply truthy_str_false].
    + simpl. eexists _, _. split; [reflexivity|]. split; [now left|].
      eapply Unsupported; eauto.
Qed.

(** Whatever the extractor returns has something other than white space
    in it. *)
Lemma extraction_nonblank (fs : gmap str file) (p : str) (text : str) :
  extraction fs p text -> strip text <> [].
Proof.
  destruct 1; try assumption;
    try (unfold error_extracting; apply strip_cons_nonblank; reflexivity);
    vm_compute; discriminate.
Qed.

(** C9: [extract_text_from_file] is total: for every path and every file
    system it returns a string, never raises, and the string it returns is
    not empty, whichever branch produced it. *)
Theorem extract_text_total (fs : gmap str file) (p : str) :
  exists text,
    result_of (extract_text_from_file p fs) = Return text /\ text <> [].
Proof.
  destruct (extract_run fs p) as (text & reads & Hrun & _ & Hcase).
  exists text. rewrite Hrun. split; [reflexivity|].
  apply extraction_nonblank in Hcase. intros ->. now apply Hcase.
Qed.

(** C4, as amended: the extractor returns the text of a valid DOCX or PDF
    when that text has something other than white space in it, the
    placeholder [No text found ...] for a valid file without such text,
    and a descriptive placeholder for a missing, unsupported or unreadable
    file; it never raises and what it returns is never empty. *)
Theorem extract_text_cases (fs : gmap str file) (p : str) :
  exists text,
    result_of (extract_text_from_file p fs) = Return text
    /\ text <> []
    /\ extraction fs p text.
Proof.
  destruct (extract_run fs p) as (text & reads & Hrun & _ & Hcase).
  exists text. rewrite Hrun. split; [reflexivity|]. split; [|exact Hcase].
  apply extraction_nonblank in Hcase. intros ->. now apply Hcase.
Qed.

(** C4, as stated, fails: a valid PDF whose pages carry no text (a scan)
    yields the placeholder, not text extracted from the file. *)
Lemma scanned_pdf_yields_placeholder :
  ~ returns_extracted_text_of_every_valid_file.
Proof.
  intros H.
  destruct (H {[ lit "/tmp/scan.pdf" := scanned_pdf ]} (lit "/tmp/scan.pdf") [[]; []])
    as [_ Hpdf].
  destruct Hpdf as [_ Hne].
  - exists scanned_pdf. repeat split; vm_compute; reflexivity.
  - now apply Hne.
Qed.

End ExtractFacts.

(** * Facts about the script *)

Module AppFacts.
Import Py Eff Codecs ExtractText ExtractSpec ResumeScreening App AppSpec.
Import PyFacts ExtractFacts.

(** ** Calls into Streamlit *)

Lemma st_taken (c : st_call) (fs : gmap str file) :
  st_accepts c = true -> st c fs = (Return tt, fs, [Ui c]).
Proof. unfold st. now intros ->. Qed.

Lemma st_refused (c : st_call) (fs : gmap str file) :
  st_accepts c = false -> st c fs = (Raise unencodable, fs, []).
Proof. unfold st. now intros ->. Qed.

Lemma encodable_app (a b : str) :
  encodable (a ++ b) = encodable a && encodable b.
Proof. apply forallb_app. Qed.

Lemma type_name_encodable (v : json) : encodable (type_name v) = true.
Proof. destruct v; reflexivity. Qed.

(** The message of each error has a UTF-8 form when the text of the
    exception it carries has one. *)
Lemma error_accepted (m : message) :
  st_accepts (st_error m)
  = match m with
    | Init_failed e | Json_parse_failed e | Api_failed e | Processing_failed e =>
        encodable (exn_str e)
    | _ => true
    end.
Proof.
  destruct m; try reflexivity; cbn [st_accepts message_text];
    rewrite ?encodable_app; reflexivity.
Qed.

(** The loop over the skills shows a bullet for each item up to the
    first one Streamlit does not take, and raises there. *)
Lemma for_each_bullets (items : list json) (fs : gmap str file) :
  for_each items (fun skill => st (st_write_bullet skill)) fs
  = (if forallb shows_encodable items then Return tt else Raise unencodable,
     fs, bullets (shown_items items)).
Proof.
  induction items as [|x items IH]; [reflexivity|].
  cbn [for_each forallb shown_items]. unfold bind.
  destruct (shows_encodable x) eqn:Hx.
  - rewrite st_taken by exact Hx. rewrite IH. reflexivity.
  - rewrite st_refused by exact Hx. reflexivity.
Qed.

Lemma shown_items_all (items : list json) :
  forallb shows_encodable items = true -> shown_items items = items.
Proof.
  induction items as [|x items IH]; [reflexivity|]. simpl.
  intros H. apply andb_true_iff in H as [-> H]. now rewrite IH.
Qed.

(** Showing the value of a skill field, case by case. *)
Lemma show_skills_cases (skills : json) (none_text : str) (fs : gmap str file) :
  encodable none_text = true ->
  show_skills skills none_text fs
  = if truthy skills then
      match iterate skills with
      | Some items =>
          (if forallb shows_encodable items then Return tt else Raise unencodable,
           fs, bullets (shown_items items))
      | None =>
          (Raise (Exn TypeError
                    (lit "'" ++ type_name skills ++ lit "' object is not iterable")),
           fs, [])
      end
    else (Return tt, fs, [Ui (st_write none_text)]).
Proof.
  intros Hnone. unfold show_skills.
  destruct (truthy skills).
  - destruct (iterate skills); [apply for_each_bullets | reflexivity].
  - now apply st_taken.
Qed.


Lemma bullets_page_part (items : list json) : page_part (bullets items).
Proof.
  unfold page_part, bullets. apply Forall_map, Forall_forall.
  intros x _. eexists. split; reflexivity.
Qed.

(** Showing any value: the loop runs to its end, or it raises
    [TypeError] before it shows anything, or it breaks off at a skill
    Streamlit does not take. *)
Lemma show_skills_run (skills : json) (none_text : str) (fs : gmap str file) :
  encodable none_text = true ->
  show_skills skills none_text fs = (Return tt, fs, skills_page skills none_text)
  \/ (exists e shown,
        show_skills skills none_text fs = (Raise e, fs, shown)
        /\ In (exn_cls e) [AttributeError; TypeError; UnicodeEncodeError]
        /\ encodable (exn_str e) = true
        /\ page_part shown).
Proof.
  intros Hnone. rewrite show_skills_cases by exact Hnone.
  unfold skills_page.
  destruct (truthy skills); [|now left].
  destruct (iterate skills) as [items|].
  - destruct (forallb shows_encodable items) eqn:Hitems.
    + left. cbn [default]. now rewrite shown_items_all.
    + right. eexists _, _. split; [reflexivity|].
      split; [simpl; tauto|]. split; [reflexivity|]. apply bullets_page_part.
  - right. eexists _, _. split; [reflexivity|].
    split; [simpl; tauto|].
    split; [|constructor].
    cbn [exn_str]. rewrite !encodable_app, type_name_encodable. reflexivity.
Qed.

Lemma errors_shown_app (l1 l2 : list event) :
  errors_shown (l1 ++ l2) = errors_shown l1 ++ errors_shown l2.
Proof.
  induction l1 as [|ev l1 IH]; [reflexivity|].
  destruct ev as [| | | |c]; simpl; auto. destruct c; simpl; auto.
  now rewrite IH.
Qed.

Lemma api_requests_app (l1 l2 : list event) :
  api_requests (l1 ++ l2) = api_requests l1 ++ api_requests l2.
Proof.
  induction l1 as [|ev l1 IH]; [reflexivity|].
  destruct ev; simpl; auto. now rewrite IH.
Qed.

Lemma page_part_app (l1 l2 : list event) :
  page_part l1 -> page_part l2 -> page_part (l1 ++ l2).
Proof. intros H1 H2. apply Forall_app. auto. Qed.

Lemma page_part_cons (c : st_call) (shown : list event) :
  page_call c = true -> page_part shown -> page_part (Ui c :: shown).
Proof. intros Hc H. constructor; eauto. Qed.

Lemma page_part_nil : page_part [].
Proof. constructor. Qed.

Ltac page_part :=
  repeat first [ apply page_part_nil
               | apply bullets_page_part
               | apply page_part_cons; [reflexivity|]
               | apply page_part_app ].

Lemma page_part_quiet (shown : list event) :
  page_part shown ->
  errors_shown shown = [] /\ api_requests shown = []
  /\ (forall v, ~ In (Ui (st_json v)) shown).
Proof.
  induction 1 as [|ev shown (c & -> & Hc) _ (IH1 & IH2 & IH3)]; [auto|].
  split; [|split].
  - destruct c; try discriminate; exact IH1.
  - exact IH2.
  - intros v [Heq | Hin]; [|now apply (IH3 v)].
    injection Heq as ->. discriminate.
Qed.

Lemma skills_page_part (skills : json) (none_text : str) :
  page_part (skills_page skills none_text).
Proof. unfold skills_page. destruct (truthy skills); page_part. Qed.

Ltac st_steps := repeat (rewrite st_taken by reflexivity; cbv beta iota).

(** Every run of [display] is one of the cases of [displayed]. *)
Lemma display_run (parsed : json) (fs : gmap str file) :
  exists o shown, display parsed fs = (o, fs, shown) /\ displayed parsed o shown.
Proof.
  assert (Hbroken : forall e shown,
            In (exn_cls e) [AttributeError; TypeError; UnicodeEncodeError] ->
            encodable (exn_str e) = true -> page_part shown ->
            forall r, r = (Raise e, fs, shown) ->
            exists o shown', r = (o, fs, shown') /\ displayed parsed o shown').
  { intros e shown Hcls Hstr Hpart r ->. eexists _, _. split; [reflexivity|].
    now apply Broken_page. }
  unfold display, bind. st_steps.
  destruct parsed as [| | | | | |d];
    try (eapply (Hbroken _ [_; _]); [| | |reflexivity];
         [simpl; tauto | reflexivity | page_part]).
  unfold get, ret. cbv beta iota.
  destruct (shows_encodable (dict_get d (lit "score") (JInt 0))) eqn:Hscore.
  2:{ rewrite st_refused by (cbn [st_accepts]; now rewrite Hscore).
      eapply (Hbroken _ [_; _]); [| | |reflexivity];
        [simpl; tauto | reflexivity | page_part]. }
  rewrite st_taken by (cbn [st_accepts]; now rewrite Hscore). cbv beta iota.
  st_steps.
  destruct (shows_encodable (dict_get d (lit "summary") (JStr no_summary))) eqn:Hsummary.
  2:{ rewrite st_refused by exact Hsummary.
      eapply (Hbroken _ [_; _; _; _]); [| | |reflexivity];
        [simpl; tauto | reflexivity | page_part]. }
  rewrite st_taken by exact Hsummary. cbv beta iota. st_steps.
  destruct (show_skills_run (dict_get d (lit "matched_skills") (JList []))
              no_matched_skills fs eq_refl)
    as [E1 | (e1 & s1 & E1 & Hc1 & Hs1 & Hp1)]; rewrite E1.
  2:{ eapply (Hbroken e1 (page_head d ++ s1)); [| | |reflexivity]; auto.
      unfold page_head. page_part. exact Hp1. }
  st_steps.
  destruct (show_skills_run (dict_get d (lit "missing_skills") (JList []))
              no_missing_skills fs eq_refl)
    as [E2 | (e2 & s2 & E2 & Hc2 & Hs2 & Hp2)]; rewrite E2.
  2:{ eapply (Hbroken e2 (page_head d ++ _ ++ [_] ++ s2)); [| | |reflexivity]; auto.
      unfold page_head. page_part; [apply skills_page_part | exact Hp2]. }
  st_steps.
  eexists _, _. split; [reflexivity|].
  now apply (Whole_page (JDict d) d).
Qed.

Lemma displayed_raises (parsed : json) (e : exn) (shown : list event) :
  displayed parsed (Raise e) shown ->
  is_Exception e = true /\ is_JSONDecodeError e = false
  /\ st_accepts (st_error (Api_failed e)) = true.
Proof.
  inversion 1 as [|e' shown' Hcls Hstr Hpart]; subst.
  rewrite error_accepted. unfold is_Exception, is_JSONDecodeError.
  simpl in Hcls. destruct Hcls as [<- | [<- | [<- | []]]]; auto.
Qed.

Lemma displayed_page_part (parsed : json) (o : outcome unit) (shown : list event) :
  displayed parsed o shown ->
  (exists d, parsed = JDict d /\ o = Return tt /\ shown = whole_page d)
  \/ page_part shown.
Proof. destruct 1; eauto. Qed.

(** The inner [try]: the page, whole or broken off; or, for a text that is
    not JSON, the parse error with the raw response, where Streamlit takes
    the raw response; or the exception [json.loads] raised at one of the
    interpreter's limits. *)
Lemma postprocess_run (rt : runtime) (text : str) (fs : gmap str file) :
  match json_loads rt (clean text) with
  | inl Malformed =>
      postprocess rt text fs
      = if encodable text
        then (Return tt, fs,
              [ Ui (st_error (Json_parse_failed (Exn JSONDecodeError [])));
                Ui (st_subheader raw_response_heading);
                Ui (st_code text) ])
        else (Raise unencodable, fs,
              [ Ui (st_error (Json_parse_failed (Exn JSONDecodeError [])));
                Ui (st_subheader raw_response_heading) ])
  | inl f => postprocess rt text fs = (Raise (loads_error f), fs, [])
  | inr parsed =>
      exists o shown,
        postprocess rt text fs = (o, fs, shown) /\ displayed parsed o shown
  end.
Proof.
  unfold postprocess, try_except, bind, loads.
  destruct (json_loads rt (clean text)) as [[| |]|parsed] eqn:Hloads;
    try reflexivity.
  - unfold raise. cbv beta iota. cbn [is_JSONDecodeError loads_error diagnostic exn_cls].
    cbv beta iota. st_steps.
    destruct (encodable text) eqn:Htext.
    + rewrite st_taken by exact Htext. reflexivity.
    + rewrite st_refused by exact Htext. reflexivity.
  - destruct (display_run parsed fs) as (o & shown & Hrun & Hshape).
    exists o, shown. split; [|exact Hshape].
    unfold ret. cbv beta iota. rewrite Hrun.
    destruct o as [[]|e]; [reflexivity|].
    apply displayed_raises in Hshape as (_ & -> & _). reflexivity.
Qed.

(** The evaluation, for texts that are not empty: the spinner, one request
    to the hosted model, and what follows it.  The one exception that
    leaves it is the encoding error for the message of a failed call. *)
Lemma run_evaluation_run (rt : runtime) (self : ResumeScreeningModel)
    (resume_text jd_text : str) (fs : gmap str file) :
  resume_text <> [] -> jd_text <> [] ->
  exists o tail,
    run_evaluation rt self resume_text jd_text fs
    = (o, fs,
       Ui (st_spinner spinner_text)
       :: ApiRequest (build_prompt resume_text jd_text) :: tail)
    /\ answered rt self (build_prompt resume_text jd_text) o tail.
Proof.
  intros Hr Hj.
  apply truthy_str_true in Hr, Hj.
  unfold run_evaluation, screen_resume, generate_content.
  rewrite Hr, Hj. simpl negb. simpl orb. cbv iota.
  unfold bind. st_steps. unfold try_except at 1. unfold try_except, bind, raise.
  destruct (model self (build_prompt resume_text jd_text)) as [msg|text] eqn:Hcall;
    cbv beta iota; cbn [is_Exception exn_cls exn_str].
  - destruct (encodable msg) eqn:Hmsg.
    + rewrite st_taken
        by (rewrite error_accepted; cbn [exn_str];
            now rewrite encodable_app, Hmsg).
      eexists _, _. split; [reflexivity|]. now apply Call_failed.
    + rewrite st_refused
        by (rewrite error_accepted; cbn [exn_str];
            now rewrite encodable_app, Hmsg).
      eexists _, _. split; [reflexivity|].
      now apply (Call_failed_unshown _ _ _ msg).
  - destruct text as [|c text]; cbn [truthy_str]; cbv iota.
    + st_steps. eexists _, _. split; [reflexivity|]. now apply Empty_response.
    + pose proof (postprocess_run rt (c :: text) fs) as Hpost.
      destruct (json_loads rt (clean (c :: text))) as [f|parsed] eqn:Hloads.
      * destruct f.
        -- rewrite Hpost. destruct (encodable (c :: text)) eqn:Htext.
           ++ eexists _, _. split; [reflexivity|]. now apply (Unparsable _ _ _ (c :: text)).
           ++ cbn [is_Exception exn_cls unencodable diagnostic]. cbv iota.
              st_steps. eexists _, _. split; [reflexivity|].
              now apply (Unparsable_unshown _ _ _ (c :: text)).
        -- rewrite Hpost. cbn [is_Exception exn_cls loads_error diagnostic].
           cbv iota. st_steps. eexists _, _. split; [reflexivity|].
           now apply (Decoder_limit _ _ _ (c :: text) Digits_exceeded).
        -- rewrite Hpost. cbn [is_Exception exn_cls loads_error diagnostic].
           cbv iota. st_steps. eexists _, _. split; [reflexivity|].
           now apply (Decoder_limit _ _ _ (c :: text) Depth_exceeded).
      * destruct Hpost as (o & shown & Hrun & Hshape). rewrite Hrun.
        destruct o as [[]|e].
        -- eexists _, _. split; [reflexivity|].
           now apply (Page_shown _ _ _ (c :: text) parsed).
        -- pose proof (displayed_raises _ _ _ Hshape) as (-> & _ & Hshow).
           rewrite st_taken by exact Hshow.
           eexists _, _. split; [reflexivity|].
           now apply (Page_broken _ _ _ (c :: text) parsed).
Qed.

Lemma blank_false (text : str) :
  blank text = false <-> text <> [] /\ strip text <> [].
Proof.
  unfold blank. rewrite orb_false_iff, negb_false_iff, truthy_str_true, str_eqb_neq.
  reflexivity.
Qed.

(** The text the extractor hands to the handler is never blank, so the
    handler's test of the resume text cannot fail. *)
Lemma extracted_text_not_blank (fs : gmap str file) (p : str) (text : str)
    (reads : list event) :
  extract_text_from_file p fs = (Return text, fs, reads) -> blank text = false.
Proof.
  intros Hrun. destruct (extract_run fs p) as (text' & reads' & Hrun' & _ & Hcase).
  rewrite Hrun in Hrun'. injection Hrun' as <- _.
  apply extraction_nonblank in Hcase. apply blank_false. split; [|exact Hcase].
  intros ->. now apply Hcase.
Qed.

Lemma processed_log (rt : runtime) (self : ResumeScreeningModel)
    (fs : gmap str file) (p : str) (data : file) (jd_bytes : list Byte.byte)
    (o : outcome unit) (fs' : gmap str file) (log log' : list event) :
  processed rt self fs p data jd_bytes o fs' log -> log = log' ->
  processed rt self fs p data jd_bytes o fs' log'.
Proof. now intros H <-. Qed.

Lemma process_files_run (rt : runtime) (ses : session)
    (self : ResumeScreeningModel) (resume : upload)
    (jd_bytes : list Byte.byte) (fs : gmap str file) :
  exists o fs' log,
    process_files rt ses self resume jd_bytes fs = (o, fs', log)
    /\ processed rt self fs (tmp_path ses resume) (upload_data resume) jd_bytes
         o fs' log.
Proof.
  set (p := tmp_path ses resume). set (data := upload_data resume).
  destruct (extract_run (<[p := data]> fs) p) as (resume_text & reads & Hx & _ & _).
  pose proof (extracted_text_not_blank _ _ _ _ Hx) as Hresume.
  unfold process_files, try_except, bind, write_file. fold p. fold data.
  rewrite Hx.
  destruct (decode_loop rt encodings_to_try jd_bytes) as [jd_text|] eqn:Hdec;
    cbv beta iota.
  - unfold ret, os_unlink. cbv beta iota. rewrite lookup_insert_eq. cbv beta iota.
    rewrite delete_insert_eq.
    fold (blank resume_text). rewrite Hresume. fold (blank jd_text).
    destruct (blank jd_text) eqn:Hjd; cbv beta iota.
    + st_steps. eexists _, _, _. split; [reflexivity|].
      now apply (Blank_jd _ _ _ _ _ _ resume_text reads jd_text).
    + apply blank_false in Hresume as Hr. apply blank_false in Hjd as Hj.
      destruct (run_evaluation_run rt self resume_text jd_text (delete p fs))
        as (o & tail & Hrun & Htail); [tauto | tauto |].
      rewrite Hrun.
      destruct o as [[]|e].
      * eexists _, _, _. split; [reflexivity|].
        eapply processed_log;
          [apply (Evaluated _ _ _ _ _ _ resume_text reads jd_text (Return tt) tail);
           assumption|].
        simpl. rewrite app_nil_r. reflexivity.
      * inversion Htail as [| msg Hcall Hmsg | | | | | |]; subst.
        change (is_Exception unencodable) with true. cbv iota. st_steps.
        eexists _, _, _. split; [reflexivity|].
        eapply processed_log;
          [apply (Evaluated _ _ _ _ _ _ resume_text reads jd_text
                    (Raise unencodable) []); assumption|].
        simpl. rewrite <- !app_assoc. reflexivity.
  - st_steps. unfold st_stop, raise. cbv beta iota.
    cbn [is_Exception exn_cls]. cbv iota.
    eexists _, _, _. split; [reflexivity|].
    now apply (Undecodable _ _ _ _ _ _ resume_text reads).
Qed.

(** [init] does not both fail and find a usable key. *)
Lemma init_fails_no_key (ses : session) (e : exn) (key : str) :
  init_fails ses e -> key_found ses key -> False.
Proof.
  unfold init_fails, key_missing_in, key_found, lookup_api_key.
  intros [[Hnone _] | [Hmiss _]] [Hkey Hne].
  - rewrite Hnone in Hkey. discriminate.
  - destruct Hmiss as [Hm | Hm]; rewrite Hm in Hkey; congruence.
Qed.

Lemma key_cases (ses : session) :
  (exists e, init_fails ses e) \/ exists key, key_found ses key.
Proof.
  unfold init_fails, key_missing_in, key_found, lookup_api_key.
  destruct (secrets_toml (config ses)) as [entries|]; [|left; eauto].
  destruct (match entries !! "GEMINI_API_KEY"%string with
            | Some v => Some v
            | None => environ (config ses) !! "GEMINI_API_KEY"%string
            end) as [[|c key]|].
  - left. eauto.
  - right. exists (c :: key). split; [reflexivity | discriminate].
  - left. eauto.
Qed.

(** Where [init] fails, the script shows two messages and stops. *)
Lemma startup_stops (rt : runtime) (ses : session) (fs : gmap str file) (e : exn) :
  init_fails ses e ->
  init (config ses) (gemini ses) fs = (Raise e, fs, [])
  /\ run rt ses fs = (Raise (Exn StopException []), fs, startup_failure e).
Proof.
  intros Hfail.
  assert (Hinit : init (config ses) (gemini ses) fs = (Raise e, fs, [])).
  { unfold init, lookup_api_key, init_fails, key_missing_in, lookup_api_key in *.
    destruct Hfail as [[-> ->] | [Hmiss ->]]; [reflexivity|].
    destruct (secrets_toml (config ses)) as [entries|];
      [|destruct Hmiss; discriminate].
    destruct Hmiss as [[= ->] | [= ->]]; reflexivity. }
  split; [exact Hinit|].
  assert (Hshown : st_accepts (st_error (Init_failed e)) = true).
  { rewrite error_accepted. destruct Hfail as [[_ ->] | [_ ->]]; reflexivity. }
  assert (Hexc : is_Exception e = true)
    by (destruct Hfail as [[_ ->] | [_ ->]]; reflexivity).
  unfold run, app, load_model, try_except, bind. rewrite Hinit. cbv beta iota.
  rewrite Hexc. rewrite st_taken by exact Hshown. unfold ret. cbv beta iota.
  st_steps. reflexivity.
Qed.

(** With a usable key the script shows the top of the page and goes on
    to the handler. *)
Lemma run_with_key (rt : runtime) (ses : session) (fs : gmap str file) (key : str) :
  key_found ses key ->
  run rt ses fs
  = (let '(o, fs', log) :=
       (if button_clicked ses then evaluate rt ses (Model key (gemini ses))
        else ret tt) fs in
     match o with
     | Return _ => (Return tt, fs', page_top ++ log ++ page_sidebar)
     | Raise e => (Raise e, fs', page_top ++ log)
     end).
Proof.
  intros [Hlook Hne]. apply truthy_str_true in Hne.
  unfold run, app, load_model, init, try_except, bind. rewrite Hlook, Hne.
  unfold ret. cbv beta iota. st_steps.
  destruct ((if button_clicked ses
             then evaluate rt ses (Model key (gemini ses))
             else fun fs0 => (Return tt, fs0, [])) fs) as [[[[]|e] fs'] log];
    [|reflexivity].
  unfold sidebar, bind. st_steps. reflexivity.
Qed.

(** Every run of the script is one of the cases of [ran]. *)
Lemma run_ran (rt : runtime) (ses : session) (fs : gmap str file) :
  exists o fs' log, run rt ses fs = (o, fs', log) /\ ran rt ses fs o fs' log.
Proof.
  destruct (key_cases ses) as [(e & Hfail) | (key & Hkey)].
  - destruct (startup_stops rt ses fs e Hfail) as [_ Hrun].
    eexists _, _, _. split; [exact Hrun | now apply No_model].
  - rewrite (run_with_key rt ses fs key Hkey).
    destruct (button_clicked ses) eqn:Hclick.
    + unfold evaluate.
      destruct (resume_file ses) as [resume|] eqn:Hresume;
        [destruct (jd_file ses) as [jd_bytes|] eqn:Hjd|].
      * destruct (process_files_run rt ses (Model key (gemini ses)) resume jd_bytes fs)
          as (o & fs' & log & Hrun & Hcase).
        rewrite Hrun. destruct o as [[]|e]; eexists _, _, _; (split; [reflexivity|]).
        -- now apply (Finished _ _ _ key resume jd_bytes).
        -- now apply (Stopped _ _ _ key resume jd_bytes).
      * rewrite st_taken by reflexivity.
        eexists _, _, _. split; [reflexivity|].
        apply (Files_missing _ _ _ key); auto.
      * rewrite st_taken by reflexivity.
        eexists _, _, _. split; [reflexivity|].
        apply (Files_missing _ _ _ key); auto.
    + eexists _, _, _. split; [reflexivity|]. now apply (Idle _ _ _ key).
Qed.

Lemma fs_trace_app (l1 l2 : list event) :
  fs_trace (l1 ++ l2) = fs_trace l1 ++ fs_trace l2.
Proof.
  induction l1 as [|ev l1 IH]; [reflexivity|].
  destruct ev; simpl; auto; now rewrite IH.
Qed.

Lemma ui_only_quiet (log : list event) :
  ui_only log -> fs_trace log = [] /\ api_requests log = [].
Proof.
  induction 1 as [|ev log [c ->] _ [IH1 IH2]]; [auto|]. simpl. auto.
Qed.

Lemma page_part_ui (shown : list event) : page_part shown -> ui_only shown.
Proof.
  intros H. eapply Forall_impl; [exact H|]. intros ev (c & -> & _). eauto.
Qed.

Lemma ui_only_app (l1 l2 : list event) :
  ui_only l1 -> ui_only l2 -> ui_only (l1 ++ l2).
Proof. intros H1 H2. apply Forall_app. auto. Qed.

Lemma ui_only_cons (c : st_call) (log : list event) :
  ui_only log -> ui_only (Ui c :: log).
Proof. intros H. constructor; eauto. Qed.

Lemma ui_only_nil : ui_only [].
Proof. constructor. Qed.

Ltac ui_only :=
  simpl;
  repeat first [ apply ui_only_cons | apply ui_only_app | apply ui_only_nil ];
  eauto using page_part_ui, skills_page_part, bullets_page_part.

Lemma displayed_ui (parsed : json) (o : outcome unit) (shown : list event) :
  displayed parsed o shown -> ui_only shown.
Proof. unfold whole_page, page_head. destruct 1; ui_only. Qed.

Lemma answered_ui (rt : runtime) (self : ResumeScreeningModel) (prompt : str)
    (o : outcome unit) (tail : list event) :
  answered rt self prompt o tail -> ui_only (tail ++ rescued o).
Proof.
  destruct 1; ui_only; eauto using displayed_ui.
Qed.

Lemma extract_reads (fs : gmap str file) (p text : str) (reads : list event) :
  extract_text_from_file p fs = (Return text, fs, reads) ->
  reads = [] \/ reads = [FsRead p].
Proof.
  intros Hrun. destruct (extract_run fs p) as (text' & reads' & Hrun' & Hreads & _).
  rewrite Hrun in Hrun'. now injection Hrun' as _ <-.
Qed.

(** The extractor opens a stored file with a supported suffix exactly
    once. *)
Lemma extract_reads_stored (fs : gmap str file) (p text : str)
    (reads : list event) (f : file) :
  fs !! p = Some f ->
  extract_text_from_file p fs = (Return text, fs, reads) ->
  reads = (if endswith (lower p) (lit ".docx") || endswith (lower p) (lit ".pdf")
           then [FsRead p] else []).
Proof.
  intros Hf.
  unfold extract_text_from_file, bind, try_except, os_path_exists, open_with, ret.
  rewrite Hf. simpl.
  destruct (endswith (lower p) (lit ".docx")); simpl.
  - rewrite Hf. destruct (docx_paragraphs f); simpl; congruence.
  - destruct (endswith (lower p) (lit ".pdf")); simpl.
    + rewrite Hf. destruct (pdf_pages f); simpl; congruence.
    + congruence.
Qed.

(** The decode loop returns what the first encoding that decodes yields. *)
Lemma decode_loop_some (rt : runtime) (encodings : list encoding)
    (jd_bytes : list Byte.byte) (jd_text : str) :
  decode_loop rt encodings jd_bytes = Some jd_text ->
  exists tried encoding later,
    encodings = tried ++ encoding :: later
    /\ Forall (fun e => decode rt e jd_bytes = None) tried
    /\ decode rt encoding jd_bytes = Some jd_text.
Proof.
  induction encodings as [|enc rest IH]; simpl; [discriminate|].
  destruct (decode rt enc jd_bytes) as [text|] eqn:Hdec.
  - intros [= ->]. exists [], enc, rest. auto.
  - intros Hrest. destruct (IH Hrest) as (tried & encoding & later & -> & Hall & Hok).
    exists (enc :: tried), encoding, later. auto.
Qed.

Lemma decode_loop_none (rt : runtime) (encodings : list encoding)
    (jd_bytes : list Byte.byte) :
  decode_loop rt encodings jd_bytes = None ->
  Forall (fun e => decode rt e jd_bytes = None) encodings.
Proof.
  induction encodings as [|enc rest IH]; simpl; [constructor|].
  destruct (decode rt enc jd_bytes) eqn:Hdec; [discriminate|].
  intros Hrest. constructor; auto.
Qed.

(** Where ISO 8859-1 decodes every byte string, so does the loop. *)
Lemma decode_loop_total (rt : runtime) (jd_bytes : list Byte.byte) :
  (forall b, is_Some (decode rt iso_8859_1 b)) ->
  is_Some (decode_loop rt encodings_to_try jd_bytes).
Proof.
  intros Hlatin. destruct (decode_loop rt encodings_to_try jd_bytes) eqn:Hloop; [eauto|].
  apply decode_loop_none in Hloop.
  assert (Hin : In iso_8859_1 encodings_to_try) by (simpl; tauto).
  rewrite Forall_forall in Hloop. apply list_elem_of_In in Hin.
  specialize (Hloop _ Hin). destruct (Hlatin jd_bytes) as [text Htext]. congruence.
Qed.

Lemma cpython_latin1_total (b : list Byte.byte) :
  is_Some (decode cpython iso_8859_1 b).
Proof. eexists. reflexivity. Qed.

(** C10: [screen_resume] raises [ValueError] whenever the resume text or
    the job description text is empty, before it builds the prompt or
    calls the hosted model: the log of the call is empty, so no request is
    made. *)
Theorem screen_resume_rejects_empty (self : ResumeScreeningModel)
    (resume_text jd_text : str) (fs : gmap str file) :
  resume_text = [] \/ jd_text = [] ->
  screen_resume self resume_text jd_text fs
  = (Raise (Exn ValueError both_required), fs, []).
Proof.
  intros [-> | ->]; unfold screen_resume; simpl; [reflexivity|].
  rewrite orb_true_r. reflexivity.
Qed.

Lemma screen_resume_rejects_empty_witness :
  screen_resume (Model (lit "secret") (fun _ => inr (lit "{}")))
    [] (lit "Python developer") ∅
  = (Raise (Exn ValueError both_required), ∅, []).
Proof. apply screen_resume_rejects_empty. left. reflexivity. Defined.

(** X24: with a secrets file, the key is the one in the file when it has
    one and the one in the environment otherwise.  With a non-empty key
    [__init__] returns the model.  With no key (or an empty one)
    [__init__] raises [ValueError] and the script stops after two error
    messages, before any uploader or button is put on the page. *)
Theorem key_lookup_with_secrets_file (rt : runtime) (ses : session)
    (entries : gmap string str) (fs : gmap str file) :
  secrets_toml (config ses) = Some entries ->
  let found :=
    match entries !! "GEMINI_API_KEY"%string with
    | Some key => Some key
    | None => environ (config ses) !! "GEMINI_API_KEY"%string
    end in
  match found with
  | Some (c :: key) =>
      init (config ses) (gemini ses) fs
      = (Return (Model (c :: key) (gemini ses)), fs, [])
  | _ =>
      init (config ses) (gemini ses) fs
      = (Raise (Exn ValueError key_missing), fs, [])
      /\ run rt ses fs
         = (Raise (Exn StopException []), fs,
            startup_failure (Exn ValueError key_missing))
      /\ Forall (fun ev => forall label,
                   ev <> Ui (st_file_uploader label) /\ ev <> Ui (st_button label))
           (log_of (run rt ses fs))
  end.
Proof.
  intros Hfile found.
  assert (Hfound : lookup_api_key (config ses) = inr found)
    by (unfold lookup_api_key; now rewrite Hfile).
  assert (Hfatal : found = None \/ found = Some [] ->
            init (config ses) (gemini ses) fs
            = (Raise (Exn ValueError key_missing), fs, [])
            /\ run rt ses fs
               = (Raise (Exn StopException []), fs,
                  startup_failure (Exn ValueError key_missing))
            /\ Forall (fun ev => forall label,
                         ev <> Ui (st_file_uploader label)
                         /\ ev <> Ui (st_button label))
                 (log_of (run rt ses fs))).
  { intros Hnone.
    assert (Hfail : init_fails ses (Exn ValueError key_missing)).
    { right. split; [|reflexivity]. unfold key_missing_in. rewrite Hfound.
      destruct Hnone as [-> | ->]; auto. }
    destruct (startup_stops rt ses fs _ Hfail) as [Hinit Hrun].
    split; [exact Hinit|]. split; [exact Hrun|].
    rewrite Hrun. unfold log_of, startup_failure. simpl.
    repeat constructor; discriminate. }
  destruct found as [[|c key]|]; [apply Hfatal; auto | | apply Hfatal; auto].
  unfold init. rewrite Hfound. reflexivity.
Qed.

(** C7, at the failing input: the key in the environment and no secrets
    file, the set-up of local development.  [st.secrets.get] raises
    before it can return its default, so the key of the environment is
    never used, whatever the environment holds: [__init__] raises, the
    script shows the two messages of a failed start and stops, and no
    uploader, no button and no request follows. *)
Theorem environment_key_is_not_reached (rt : runtime)
    (env : gmap string str) (hosted : hosted_model)
    (resume : option upload) (jd : option (list Byte.byte)) (click : bool)
    (name : str) (fs : gmap str file) :
  let ses := Session (Settings None env) hosted resume jd click name in
  lookup_api_key (config ses) = inl (diagnostic SecretNotFoundError)
  /\ init (config ses) (gemini ses) fs
     = (Raise (diagnostic SecretNotFoundError), fs, [])
  /\ run rt ses fs
     = (Raise (Exn StopException []), fs,
        startup_failure (diagnostic SecretNotFoundError))
  /\ Forall (fun ev => forall label,
               ev <> Ui (st_file_uploader label) /\ ev <> Ui (st_button label))
       (log_of (run rt ses fs))
  /\ api_requests (log_of (run rt ses fs)) = [].
Proof.
  intros ses.
  assert (Hfail : init_fails ses (diagnostic SecretNotFoundError))
    by (left; split; reflexivity).
  destruct (startup_stops rt ses fs _ Hfail) as [Hinit Hrun].
  split; [reflexivity|]. split; [exact Hinit|]. split; [exact Hrun|].
  rewrite Hrun. unfold log_of, startup_failure. simpl.
  split; [repeat constructor; discriminate | reflexivity].
Qed.

Lemma key_lookup_with_secrets_file_witness :
  let ses := sample_session (inr sample_response) in
  secrets_toml (config ses) = Some ∅
  /\ init (config ses) (gemini ses) ∅
     = (Return (Model (lit "secret") (gemini ses)), ∅, []).
Proof.
  intros ses.
  assert (H : secrets_toml (config ses) = Some ∅) by reflexivity.
  split; [exact H|].
  exact (key_lookup_with_secrets_file cpython ses ∅ ∅ H).
Defined.

(** The same at one input: the sample session without its secrets
    file. *)
Lemma env_only_session_stops :
  let ses := Session env_only_settings (fun _ => inr sample_response)
               (Some sample_resume) (Some sample_jd) true (lit "/tmp/tmpk3x9") in
  environ (config ses) !! "GEMINI_API_KEY"%string = Some (lit "secret")
  /\ result_of (run cpython ses ∅) = Raise (Exn StopException [])
  /\ errors_shown (log_of (run cpython ses ∅))
     = [Init_failed (diagnostic SecretNotFoundError); Load_failed].
Proof.
  intros ses. split; [reflexivity|].
  destruct (environment_key_is_not_reached cpython
              {[ "GEMINI_API_KEY"%string := lit "secret" ]}
              (fun _ => inr sample_response) (Some sample_resume) (Some sample_jd)
              true (lit "/tmp/tmpk3x9") ∅) as (_ & _ & Hrun & _).
  cbv zeta in Hrun. unfold ses, env_only_settings. rewrite Hrun.
  split; reflexivity.
Defined.

(** C1: the decode loop tries the five encodings in the order of
    [encodings_to_try] and returns what the first one that decodes
    yields.  When none of the five decodes, the handler shows the decode
    error and stops the script without a request to the hosted model. *)
Theorem decode_loop_first_success (rt : runtime) (ses : session)
    (self : ResumeScreeningModel) (resume : upload)
    (jd_bytes : list Byte.byte) (fs : gmap str file) :
  encodings_to_try = [utf_8; utf_8_sig; windows_1252; iso_8859_1; cp1252]
  /\ match decode_loop rt encodings_to_try jd_bytes with
     | Some jd_text =>
         exists tried encoding later,
           encodings_to_try = tried ++ encoding :: later
           /\ Forall (fun e => decode rt e jd_bytes = None) tried
           /\ decode rt encoding jd_bytes = Some jd_text
     | None =>
         Forall (fun e => decode rt e jd_bytes = None) encodings_to_try
         /\ let r := process_files rt ses self resume jd_bytes fs in
            result_of r = Raise (Exn StopException [])
            /\ errors_shown (log_of r) = [Decode_failed]
            /\ last (log_of r) = Some (Ui (st_error Decode_failed))
            /\ api_requests (log_of r) = []
     end.
Proof.
  split; [reflexivity|].
  destruct (decode_loop rt encodings_to_try jd_bytes) as [jd_text|] eqn:Hloop.
  - now apply decode_loop_some.
  - split; [now apply decode_loop_none|].
    destruct (process_files_run rt ses self resume jd_bytes fs)
      as (o & fs' & log & Hrun & Hcase).
    rewrite Hrun. unfold result_of, log_of. simpl.
    inversion Hcase as [text reads Hx Hdec | text reads jd Hx Hdec
                       | text reads jd tail Hx Hdec]; subst; try congruence.
    apply extract_reads in Hx. destruct Hx as [-> | ->]; simpl; auto.
Qed.

(** C6: in every screening run the temporary file is written, then read
    by the extractor, then removed; on every path of the run, whatever
    error it ends in, the file system the run leaves no longer holds the
    file.  The codecs enter through the one fact that ISO 8859-1 decodes
    every byte string, so the decode loop always yields a text. *)
Theorem tmp_file_lifecycle (rt : runtime) (ses : session)
    (resume : upload) (jd_bytes : list Byte.byte) (fs : gmap str file) :
  (forall b, is_Some (decode rt iso_8859_1 b)) ->
  screening ses resume jd_bytes ->
  let p := tmp_path ses resume in
  let r := run rt ses fs in
  fs_trace (log_of r)
  = FsWrite p
    :: (if endswith (lower p) (lit ".docx") || endswith (lower p) (lit ".pdf")
        then [FsRead p] else [])
    ++ [FsUnlink p]
  /\ fs_of r = delete p fs
  /\ fs_of r !! p = None
  /\ (fs !! p = None -> fs_of r = fs).
Proof.
  intros Hlatin [[key Hkey] Hclick Hresume Hjd] p r.
  cut (fs_trace (log_of r)
       = FsWrite p
         :: (if endswith (lower p) (lit ".docx") || endswith (lower p) (lit ".pdf")
             then [FsRead p] else [])
         ++ [FsUnlink p]
       /\ fs_of r = delete p fs
       /\ fs_of r !! p = None).
  { intros (H1 & H2 & H3). repeat split; auto.
    intros Hfresh. rewrite H2. now apply delete_id. }
  destruct (run_ran rt ses fs) as (o & fs' & log & Hrun & Hcase).
  subst r. rewrite Hrun. unfold log_of, fs_of. simpl.
  assert (Hgoal : forall o' log',
    processed rt (Model key (gemini ses)) fs p (upload_data resume) jd_bytes o' fs' log' ->
    fs_trace log'
    = FsWrite p
      :: (if endswith (lower p) (lit ".docx") || endswith (lower p) (lit ".pdf")
          then [FsRead p] else [])
      ++ [FsUnlink p]
    /\ fs' = delete p fs).
  { intros o' log' Hp.
    destruct (decode_loop_total rt jd_bytes Hlatin) as [jd_text Hjd_text].
    inversion Hp as [text reads Hx Hdec | text reads jd Hx Hdec Hblank
                    | text reads jd o1 tail Hx Hdec Hb1 Hb2 Htail]; subst;
      try congruence;
      apply (extract_reads_stored _ _ _ _ (upload_data resume)) in Hx;
      try apply lookup_insert_eq; subst reads; split; try reflexivity;
      simpl; rewrite fs_trace_app; simpl.
    - destruct (_ || _); reflexivity.
    - apply answered_ui, ui_only_quiet in Htail as [-> _].
      destruct (_ || _); reflexivity. }
  assert (Hsame : forall key', key_found ses key' -> key' = key).
  { intros key' [Hk' _]. destruct Hkey as [Hk _]. congruence. }
  inversion Hcase as [e Hfail | key' Hk Hc | key' Hk Hc Hfiles
                     | key' resume' jd' e fs'' log' Hk Hc Hr Hj Hp
                     | key' resume' jd' fs'' log' Hk Hc Hr Hj Hp]; subst.
  - now destruct (init_fails_no_key ses e key).
  - congruence.
  - destruct Hfiles; congruence.
  - rewrite (Hsame key' Hk) in Hp.
    assert (resume' = resume) by congruence. assert (jd' = jd_bytes) by congruence.
    subst. destruct (Hgoal _ _ Hp) as [Ht ->].
    rewrite fs_trace_app. simpl. split; [exact Ht|].
    split; [reflexivity | apply lookup_delete_eq].
  - rewrite (Hsame key' Hk) in Hp.
    assert (resume' = resume) by congruence. assert (jd' = jd_bytes) by congruence.
    subst. destruct (Hgoal _ _ Hp) as [Ht ->].
    rewrite !fs_trace_app. simpl. rewrite app_nil_r. split; [exact Ht|].
    split; [reflexivity | apply lookup_delete_eq].
Qed.

Lemma tmp_file_lifecycle_witness :
  let ses := sample_session (inr (lit "{}")) in
  let p := tmp_path ses sample_resume in
  let r := run cpython ses ∅ in
  screening ses sample_resume sample_jd
  /\ fs_trace (log_of r) = [FsWrite p; FsRead p; FsUnlink p]
  /\ fs_of r = delete p ∅
  /\ fs_of r !! p = None
  /\ ((∅ : gmap str file) !! p = None -> fs_of r = ∅).
Proof.
  assert (Hs : screening (sample_session (inr (lit "{}"))) sample_resume sample_jd).
  { constructor; try reflexivity.
    exists (lit "secret"). split; [reflexivity | discriminate]. }
  split; [exact Hs|].
  exact (tmp_file_lifecycle cpython (sample_session (inr (lit "{}")))
           sample_resume sample_jd ∅ cpython_latin1_total Hs).
Defined.

(** Where one list is cut in two places: the second cut falls inside the
    first part, on the same element, or inside the second part. *)
Lemma app_cons_split {A} (l1 l2 before after : list A) (x ev : A) :
  l1 ++ x :: l2 = before ++ ev :: after ->
  In ev l1
  \/ (before = l1 /\ ev = x /\ after = l2)
  \/ (exists mid, before = l1 ++ x :: mid /\ l2 = mid ++ ev :: after).
Proof.
  revert before. induction l1 as [|a l1 IH]; intros before Heq.
  - destruct before as [|b before]; simpl in Heq.
    + injection Heq as <- <-. right. left. auto.
    + injection Heq as <- ->. right. right. exists before. auto.
  - destruct before as [|b before]; simpl in Heq.
    + injection Heq as <- _. left. now left.
    + injection Heq as <- Heq. destruct (IH _ Heq) as [Hin | [(-> & -> & ->) | (mid & -> & ->)]].
      * left. now right.
      * right. left. auto.
      * right. right. exists mid. auto.
Qed.

Lemma plain_forall_in (log : list event) (ev : event) :
  forallb plain log = true -> In ev log -> plain ev = true.
Proof. rewrite forallb_forall. auto. Qed.

Lemma api_requests_none (log : list event) (prompt : str) :
  api_requests log = [] -> ~ In (ApiRequest prompt) log.
Proof.
  induction log as [|ev log IH]; simpl; [tauto|].
  destruct ev; simpl; try discriminate; intros Hnone [Heq|Hin];
    try discriminate; now apply IH.
Qed.

(** What [display] leaves on the page when it breaks off, and the
    messages that replace the page, show nothing of the evaluation past
    the success banner and the score. *)
Lemma answered_shows (rt : runtime) (self : ResumeScreeningModel) (prompt : str)
    (o : outcome unit) (tail : list event) (ev : event) :
  answered rt self prompt o tail -> In ev (tail ++ rescued o) ->
  shows_result ev = true ->
  exists result_text parsed,
    model self prompt = inr result_text
    /\ result_text <> []
    /\ json_loads rt (clean result_text) = inr parsed.
Proof.
  destruct 1 as [msg Hcall Hmsg | msg Hcall Hmsg | Hcall
                | text Hcall Hne Hloads Htext | text Hcall Hne Hloads Htext
                | text f Hcall Hne Hloads Hf
                | text parsed shown Hcall Hne Hloads Hshown
                | text parsed e shown Hcall Hne Hloads Hshown];
    simpl; intros Hin Hshow; eauto;
    repeat (destruct Hin as [<- | Hin]; [discriminate|]); contradiction.
Qed.

(** C8: a run goes upload, extract, prompt, parse, display.  A request to
    the hosted model occurs only in a screening run, after the temporary
    file has been written and removed again, with a prompt built from the
    text the extractor returned and the text the decode loop returned,
    both checked to be non-blank; nothing was requested before it.  And
    whatever puts the evaluation on the page comes after the request, in
    a run where the response was not empty and [json.loads] accepted its
    cleaned text. *)
Theorem pipeline_order (rt : runtime) (ses : session) (fs : gmap str file)
    (before after : list event) (ev : event) :
  log_of (run rt ses fs) = before ++ ev :: after ->
  (forall prompt, ev = ApiRequest prompt ->
     exists resume jd_bytes resume_text jd_text,
       screening ses resume jd_bytes
       /\ extraction (<[tmp_path ses resume := upload_data resume]> fs)
            (tmp_path ses resume) resume_text
       /\ decode_loop rt encodings_to_try jd_bytes = Some jd_text
       /\ blank resume_text = false
       /\ blank jd_text = false
       /\ prompt = build_prompt resume_text jd_text
       /\ In (FsWrite (tmp_path ses resume)) before
       /\ In (FsUnlink (tmp_path ses resume)) before
       /\ api_requests before = [])
  /\ (shows_result ev = true ->
      exists prompt result_text parsed,
        In (ApiRequest prompt) before
        /\ gemini ses prompt = inr result_text
        /\ result_text <> []
        /\ json_loads rt (clean result_text) = inr parsed).
Proof.
  destruct (run_ran rt ses fs) as (o & fs' & log & Hrun & Hcase).
  rewrite Hrun. unfold log_of. simpl. intros Hlog.
  assert (Hplain : forallb plain log = true -> plain ev = true).
  { intros Hall. apply (plain_forall_in log); [exact Hall|].
    rewrite Hlog. apply in_elt. }
  assert (Hnot : plain ev = true ->
            (forall prompt, ev <> ApiRequest prompt) /\ shows_result ev <> true).
  { destruct ev as [| | | |c]; try destruct c; simpl; intros Hp;
      split; intros; congruence. }
  assert (Hquiet : forall (P : str -> Prop) (Q : Prop),
            forallb plain log = true ->
            (forall prompt, ev = ApiRequest prompt -> P prompt)
            /\ (shows_result ev = true -> Q)).
  { intros P Q Hall. destruct (Hnot (Hplain Hall)) as [H1 H2].
    split; [intros prompt Hev; now destruct (H1 prompt) | tauto]. }
  assert (Hprocessed : forall key resume jd_bytes o' rest,
    key_found ses key -> button_clicked ses = true ->
    resume_file ses = Some resume -> jd_file ses = Some jd_bytes ->
    processed rt (Model key (gemini ses)) fs (tmp_path ses resume)
      (upload_data resume) jd_bytes o' fs' rest ->
    forall sidebar, forallb plain sidebar = true ->
    log = page_top ++ rest ++ sidebar ->
    (forall prompt, ev = ApiRequest prompt ->
       exists resume jd_bytes resume_text jd_text,
         screening ses resume jd_bytes
         /\ extraction (<[tmp_path ses resume := upload_data resume]> fs)
              (tmp_path ses resume) resume_text
         /\ decode_loop rt encodings_to_try jd_bytes = Some jd_text
         /\ blank resume_text = false
         /\ blank jd_text = false
         /\ prompt = build_prompt resume_text jd_text
         /\ In (FsWrite (tmp_path ses resume)) before
         /\ In (FsUnlink (tmp_path ses resume)) before
         /\ api_requests before = [])
    /\ (shows_result ev = true ->
        exists prompt result_text parsed,
          In (ApiRequest prompt) before
          /\ gemini ses prompt = inr result_text
          /\ result_text <> []
          /\ json_loads rt (clean result_text) = inr parsed)).
  { intros key resume jd_bytes o' rest Hkey Hclick Hresume Hjd Hp sidebar Hside Hshape.
    set (p := tmp_path ses resume) in *.
    inversion Hp as [text reads Hx Hdec | text reads jd Hx Hdec Hblank
                    | text reads jd o1 tail0 Hx Hdec Hb1 Hb2 Htail]; subst rest.
    - apply Hquiet. rewrite Hshape, !forallb_app, Hside.
      apply extract_reads in Hx. destruct Hx as [-> | ->]; reflexivity.
    - apply Hquiet. rewrite Hshape, !forallb_app, Hside.
      apply extract_reads in Hx. destruct Hx as [-> | ->]; reflexivity.
    - set (prompt0 := build_prompt text jd) in *.
      set (tail := tail0 ++ rescued o1) in *.
      set (l1 := page_top ++ FsWrite p :: reads
                 ++ [FsUnlink p; Ui (st_spinner spinner_text)]).
      assert (Hl1 : forallb plain l1 = true).
      { subst l1. rewrite !forallb_app.
        apply extract_reads in Hx. destruct Hx as [-> | ->]; reflexivity. }
      assert (Hcut : l1 ++ ApiRequest prompt0 :: (tail ++ sidebar)
                     = before ++ ev :: after).
      { rewrite <- Hlog, Hshape. subst l1. simpl.
        rewrite <- ?app_assoc. reflexivity. }
      assert (Htail_api : api_requests (tail ++ sidebar) = []).
      { rewrite api_requests_app.
        apply answered_ui, ui_only_quiet in Htail as Hq. destruct Hq as [_ Hq].
        change (api_requests tail = []) in Hq. rewrite Hq.
        simpl. clear -Hside. induction sidebar as [|a sidebar IH]; [reflexivity|].
        simpl in Hside. apply andb_true_iff in Hside as [Ha Hs].
        destruct a; simpl; try discriminate; auto. }
      assert (Hl1_api : api_requests l1 = []).
      { clear -Hl1. induction l1 as [|a l1 IH]; [reflexivity|].
        simpl in Hl1. apply andb_true_iff in Hl1 as [Ha Hs].
        destruct a; simpl; try discriminate; auto. }
      destruct (app_cons_split _ _ _ _ _ _ Hcut)
        as [Hin | [(-> & -> & ->) | (mid & -> & Hmid)]].
      + destruct (Hnot (plain_forall_in _ _ Hl1 Hin)) as [H1 H2].
        split; [intros prompt Hev; now destruct (H1 prompt) | tauto].
      + split; [|discriminate].
        intros prompt [= <-].
        exists resume, jd_bytes, text, jd.
        split; [constructor; eauto|].
        split.
        { destruct (extract_run (<[p := upload_data resume]> fs) p)
            as (text' & reads' & Hx' & _ & Hcase').
          rewrite Hx in Hx'. injection Hx' as <- _. exact Hcase'. }
        repeat split; auto.
        * subst l1. apply in_or_app. right. now left.
        * subst l1. apply in_or_app. right. right.
          apply in_or_app. right. now left.
      + split.
        * intros prompt ->. exfalso.
          apply (api_requests_none _ prompt Htail_api).
          rewrite Hmid. apply in_elt.
        * intros Hshow.
          assert (Hin : In ev (tail ++ sidebar)) by (rewrite Hmid; apply in_elt).
          apply in_app_or in Hin as [Hin | Hin].
          -- destruct (answered_shows _ _ _ _ _ _ Htail Hin Hshow)
               as (result_text & parsed & Hcall & Hne & Hloads).
             exists prompt0, result_text, parsed.
             split; [apply in_elt | auto].
          -- apply (plain_forall_in _ _ Hside) in Hin.
             destruct (Hnot Hin) as [_ H2]. tauto. }
  inversion Hcase as [e Hfail | key Hk Hc | key Hk Hc Hfiles
                     | key resume jd e fs'' log' Hk Hc Hr Hj Hp
                     | key resume jd fs'' log' Hk Hc Hr Hj Hp];
    match goal with Heq : _ = log |- _ => rename Heq into Hshape end.
  - apply Hquiet. rewrite <- Hshape. reflexivity.
  - apply Hquiet. rewrite <- Hshape. reflexivity.
  - apply Hquiet. rewrite <- Hshape. reflexivity.
  - subst fs''. apply (Hprocessed key resume jd _ log' Hk Hc Hr Hj Hp []);
      [reflexivity|]. now rewrite app_nil_r.
  - subst fs''. apply (Hprocessed key resume jd _ log' Hk Hc Hr Hj Hp page_sidebar);
      [reflexivity | now symmetry].
Qed.

Lemma pipeline_order_witness :
  let ses := sample_session (inr sample_response) in
  let log := log_of (run cpython ses ∅) in
  let prompt := build_prompt (lit "Python developer, Django") (lit "Python") in
  log = firstn 10 log ++ ApiRequest prompt :: skipn 11 log
  /\ exists resume jd_bytes resume_text jd_text,
       screening ses resume jd_bytes
       /\ extraction (<[tmp_path ses resume := upload_data resume]> ∅)
            (tmp_path ses resume) resume_text
       /\ decode_loop cpython encodings_to_try jd_bytes = Some jd_text
       /\ blank resume_text = false
       /\ blank jd_text = false
       /\ prompt = build_prompt resume_text jd_text
       /\ In (FsWrite (tmp_path ses resume)) (firstn 10 log)
       /\ In (FsUnlink (tmp_path ses resume)) (firstn 10 log)
       /\ api_requests (firstn 10 log) = [].
Proof.
  intros ses log prompt.
  assert (Hcut : log = firstn 10 log ++ ApiRequest prompt :: skipn 11 log)
    by (vm_compute; reflexivity).
  split; [exact Hcut|].
  exact (proj1 (pipeline_order cpython ses ∅ (firstn 10 log) (skipn 11 log)
                  (ApiRequest prompt) Hcut) prompt eq_refl).
Defined.

(** C2, at the failing input: a run with an image-only PDF as the resume.
    The extractor returns its placeholder, no error is shown, and the
    placeholder goes to the hosted model as the resume text. *)
Theorem textless_resume_reaches_model :
  let p := tmp_path scanned_session (Upload (lit "scan.pdf") scanned_pdf) in
  let r := run cpython scanned_session ∅ in
  result_of (extract_text_from_file p {[ p := scanned_pdf ]}) = Return no_text_in_pdf
  /\ errors_shown (log_of r) = []
  /\ api_requests (log_of r) = [build_prompt no_text_in_pdf (lit "Python")]
  /\ In (Ui (st_success Evaluation_complete)) (log_of r).
Proof.
  repeat split; try (vm_compute; reflexivity).
  vm_compute. tauto.
Qed.

(** ** Stripping the code fence *)

Lemma replace_from_skip (old new : str) (k : nat) (s : str) :
  replace_from old new k s = replace_from old new 0 (drop k s).
Proof.
  revert k. induction s as [|c s IH]; intros [|k]; try reflexivity.
  simpl. apply IH.
Qed.

Lemma replace_fence_step (s : str) :
  replace s fence []
  = match s with
    | [] => []
    | c :: s' =>
        if startswith fence s then replace (drop 2 s') fence []
        else c :: replace s' fence []
    end.
Proof.
  unfold replace. destruct s as [|c s']; [reflexivity|].
  change (replace_from fence [] 0 (c :: s'))
    with (if startswith fence (c :: s')
          then [] ++ replace_from fence [] (length fence - 1) s'
          else c :: replace_from fence [] 0 s').
  destruct (startswith fence (c :: s')); [|reflexivity].
  simpl app. apply replace_from_skip.
Qed.

Lemma startswith_fence_cons (c : N) (t : str) :
  startswith fence (c :: t) = (backtick =? c)%N && startswith [backtick; backtick] t.
Proof. reflexivity. Qed.

Lemma startswith_two_one (t : str) :
  startswith [backtick] t = false -> startswith [backtick; backtick] t = false.
Proof.
  destruct t as [|c t]; [reflexivity|]. rewrite !startswith_cons.
  destruct (backtick =? c)%N; [discriminate | reflexivity].
Qed.

(** A text that does not start with a backtick is still so after the
    fences are removed; the same for two backticks. *)
Lemma replace_fence_head1 (s : str) :
  startswith [backtick] s = false ->
  startswith [backtick] (replace s fence []) = false.
Proof.
  intros H. rewrite replace_fence_step. destruct s as [|c s]; [reflexivity|].
  rewrite startswith_fence_cons. rewrite startswith_cons in H.
  destruct (backtick =? c)%N eqn:Hc; [discriminate|].
  rewrite andb_false_l, startswith_cons, Hc. reflexivity.
Qed.

Lemma replace_fence_head2 (s : str) :
  startswith [backtick; backtick] s = false ->
  startswith [backtick; backtick] (replace s fence []) = false.
Proof.
  intros H. rewrite replace_fence_step. destruct s as [|c s]; [reflexivity|].
  rewrite startswith_fence_cons. rewrite startswith_cons in H.
  destruct (backtick =? c)%N eqn:Hc.
  - rewrite andb_true_l in H. rewrite andb_true_l, (startswith_two_one _ H).
    rewrite startswith_cons, Hc, andb_true_l. now apply replace_fence_head1.
  - rewrite andb_false_l, startswith_cons, Hc. reflexivity.
Qed.

(** Removing the fences leaves none: [fuel] bounds the length of the
    text. *)
Lemma replace_fence_clean_fuel (fuel : nat) (s : str) :
  length s <= fuel -> occurs fence (replace s fence []) = false.
Proof.
  revert s. induction fuel as [|fuel IH]; intros s Hlen.
  - destruct s; [reflexivity | simpl in Hlen; lia].
  - rewrite replace_fence_step. destruct s as [|c s]; [reflexivity|].
    simpl in Hlen.
    destruct (startswith fence (c :: s)) eqn:Hf.
    + apply IH. rewrite length_drop. lia.
    + change (occurs fence (c :: replace s fence []))
        with (startswith fence (c :: replace s fence [])
              || occurs fence (replace s fence [])).
      rewrite IH by lia. rewrite orb_false_r.
      rewrite startswith_fence_cons in *.
      destruct (backtick =? c)%N; [|reflexivity].
      rewrite andb_true_l in *. now apply replace_fence_head2.
Qed.

Lemma replace_fence_clean (s : str) : occurs fence (replace s fence []) = false.
Proof. apply (replace_fence_clean_fuel (length s)). lia. Qed.

Lemma startswith_app (p s suffix : str) :
  startswith p s = true -> startswith p (s ++ suffix) = true.
Proof.
  revert s. induction p as [|a p IH]; intros [|b s]; simpl; try easy.
  intros H. apply andb_true_iff in H as [-> H]. simpl. now apply IH.
Qed.

Lemma occurs_app_l (p s suffix : str) :
  occurs p s = true -> occurs p (s ++ suffix) = true.
Proof.
  induction s as [|c s IH]; simpl.
  - rewrite orb_false_r. intros H.
    destruct suffix; simpl; rewrite ?orb_false_r;
      destruct p; simpl in *; try discriminate; reflexivity.
  - intros H. apply orb_true_iff in H as [H|H].
    + apply (startswith_app p (c :: s) suffix) in H. simpl in H.
      rewrite H. reflexivity.
    + rewrite (IH H). apply orb_true_r.
Qed.

Lemma occurs_app_r (p prefix s : str) :
  occurs p s = true -> occurs p (prefix ++ s) = true.
Proof.
  induction prefix as [|c prefix IH]; [easy|].
  intros H. simpl. rewrite (IH H). apply orb_true_r.
Qed.

Lemma lstrip_suffix (s : str) : exists prefix, s = prefix ++ lstrip s.
Proof.
  induction s as [|c s [prefix IH]]; [now exists []|].
  simpl. destruct (isspace c).
  - exists (c :: prefix). simpl. now rewrite <- IH.
  - now exists [].
Qed.

Lemma rstrip_prefix (s : str) : exists suffix, s = rstrip s ++ suffix.
Proof.
  unfold rstrip. destruct (lstrip_suffix (rev s)) as [prefix H].
  exists (rev prefix). rewrite <- rev_app_distr, <- H. now rewrite rev_involutive.
Qed.

Lemma occurs_strip (p s : str) : occurs p s = false -> occurs p (strip s) = false.
Proof.
  intros H. destruct (occurs p (strip s)) eqn:Hs; [|reflexivity].
  unfold strip in Hs.
  destruct (rstrip_prefix (lstrip s)) as [suffix H1].
  destruct (lstrip_suffix s) as [prefix H2].
  apply (occurs_app_l _ _ suffix) in Hs. rewrite <- H1 in Hs.
  apply (occurs_app_r _ prefix) in Hs. rewrite <- H2 in Hs. congruence.
Qed.

(** The cleaned response holds no code-fence marker. *)
Lemma clean_has_no_fence (result_text : str) :
  occurs fence (clean result_text) = false.
Proof. unfold clean. apply occurs_strip, replace_fence_clean. Qed.






(** The raw object is on the page only when the whole page is, and then
    it is the parsed object itself. *)
Lemma displayed_json (parsed : json) (o : outcome unit) (shown : list event)
    (v : json) :
  displayed parsed o shown -> In (Ui (st_json v)) shown ->
  exists d,
    parsed = JDict d /\ v = JDict d /\ o = Return tt /\ shown = whole_page d.
Proof.
  intros Hshown Hin.
  destruct (displayed_page_part _ _ _ Hshown) as [(d & -> & -> & ->) | Hpart].
  2:{ apply page_part_quiet in Hpart as (_ & _ & Hno). now destruct (Hno v). }
  exists d. repeat split; try reflexivity.
  assert (Hno : forall part, page_part part -> ~ In (Ui (st_json v)) part).
  { intros part Hpart. apply page_part_quiet in Hpart as (_ & _ & Hno). apply Hno. }
  unfold whole_page in Hin. rewrite !in_app_iff in Hin.
  destruct Hin as [Hin | [Hin | [Hin | [Hin | Hin]]]].
  - destruct (Hno (page_head d)); [unfold page_head; page_part | exact Hin].
  - destruct (Hno _ (skills_page_part _ _) Hin).
  - simpl in Hin. intuition discriminate.
  - destruct (Hno _ (skills_page_part _ _) Hin).
  - simpl in Hin. destruct Hin as [Hin | [Hin | []]]; [discriminate|].
    now injection Hin as <-.
Qed.

(** C5, as amended: every evaluation result put on the page is the object
    [json.loads] returned for the cleaned response, whatever it holds,
    and with it the page is the one made from that object through its
    four keys: the score (0 when absent) and the summary (the placeholder
    when absent), of any type and any range, one bullet for each item the
    value under [matched_skills] and the value under [missing_skills]
    yields (the empty list when absent), and the object itself as raw
    JSON.  Nothing in the code restricts the result to the four-field
    record the prompt asks for. *)
Theorem rendered_result_is_parsed_object (rt : runtime) (result_text : str)
    (fs : gmap str file) (v : json) :
  In (Ui (st_json v)) (log_of (postprocess rt result_text fs)) ->
  json_loads rt (clean result_text) = inr v
  /\ exists d,
       v = JDict d
       /\ postprocess rt result_text fs
          = (Return tt, fs,
             [ Ui (st_success Evaluation_complete);
               Ui (st_columns 3);
               Ui (st_metric metric_label (dict_get d (lit "score") (JInt 0)));
               Ui (st_subheader summary_heading);
               Ui (st_write_value (dict_get d (lit "summary") (JStr no_summary)));
               Ui (st_columns 2);
               Ui (st_subheader matched_heading) ]
             ++ skills_page (dict_get d (lit "matched_skills") (JList []))
                  no_matched_skills
             ++ [ Ui (st_subheader missing_heading) ]
             ++ skills_page (dict_get d (lit "missing_skills") (JList []))
                  no_missing_skills
             ++ [ Ui (st_expander expander_label); Ui (st_json (JDict d)) ]).
Proof.
  pose proof (postprocess_run rt result_text fs) as Hrun.
  destruct (json_loads rt (clean result_text)) as [f|parsed].
  - intros Hin. exfalso. destruct f; rewrite Hrun in Hin.
    + destruct (encodable result_text); simpl in Hin; intuition discriminate.
    + destruct Hin.
    + destruct Hin.
  - destruct Hrun as (o & shown & Hrun & Hshape). rewrite Hrun.
    unfold log_of. cbn [snd]. intros Hin.
    destruct (displayed_json _ _ _ _ Hshape Hin) as (d & -> & -> & -> & ->).
    split; [reflexivity|]. exists d. split; reflexivity.
Qed.

Lemma rendered_result_is_parsed_object_witness :
  let v := JDict [(lit "score", JInt 150)] in
  In (Ui (st_json v)) (log_of (postprocess cpython off_scale_response ∅))
  /\ json_loads cpython (clean off_scale_response) = inr v
  /\ In (Ui (st_metric metric_label (JInt 150)))
       (log_of (postprocess cpython off_scale_response ∅))
  /\ In (Ui (st_write no_matched_skills))
       (log_of (postprocess cpython off_scale_response ∅)).
Proof.
  intros v.
  assert (H : In (Ui (st_json v)) (log_of (postprocess cpython off_scale_response ∅)))
    by (vm_compute; tauto).
  split; [exact H|].
  destruct (rendered_result_is_parsed_object cpython off_scale_response ∅ v H)
    as (Hloads & d & Hd & Hrun).
  split; [exact Hloads|].
  injection Hd as <-. rewrite Hrun. unfold log_of. cbn [snd].
  split; vm_compute; tauto.
Defined.

(** C5, as stated, fails: an object with a score of 150 and no other
    field is put on the page as it is. *)
Lemma off_scale_score_is_rendered : ~ renders_only_evaluation_records cpython.
Proof.
  intros H.
  specialize (H off_scale_response ∅ (JDict [(lit "score", JInt 150)])).
  assert (Hin : In (Ui (st_json (JDict [(lit "score", JInt 150)])))
                  (log_of (postprocess cpython off_scale_response ∅)))
    by (vm_compute; tauto).
  specialize (H Hin). vm_compute in H. discriminate.
Qed.

(** ** The table of outcomes of a screening run *)

Lemma page_part_no_errors (shown : list event) :
  page_part shown -> errors_shown shown = [].
Proof. intros H. now apply page_part_quiet in H. Qed.

Lemma displayed_no_errors (parsed : json) (o : outcome unit) (shown : list event) :
  displayed parsed o shown -> errors_shown shown = [].
Proof.
  destruct 1 as [d _ | e shown _ _ Hpart]; [|now apply page_part_no_errors].
  unfold whole_page. rewrite !errors_shown_app.
  rewrite !(page_part_no_errors _ (skills_page_part _ _)). reflexivity.
Qed.



(** X10: no run sends more than one request to the hosted model, however
    it ends: nothing is retried. *)
Lemma at_most_one_request (rt : runtime) (ses : session) (fs : gmap str file) :
  length (api_requests (log_of (run rt ses fs))) <= 1.
Proof.
  destruct (run_ran rt ses fs) as (o & fs' & log & Hrun & Hcase).
  rewrite Hrun. unfold log_of. simpl.
  assert (Hp : forall self p data jd o' rest,
            processed rt self fs p data jd o' fs' rest ->
            length (api_requests rest) <= 1).
  { intros self p data jd o' rest Hp.
    inversion Hp as [text reads Hx Hdec | text reads jd_text Hx Hdec Hblank
                    | text reads jd_text o1 tail Hx Hdec Hb1 Hb2 Htail]; subst;
      apply extract_reads in Hx; simpl; rewrite api_requests_app;
      try (apply answered_ui, ui_only_quiet in Htail as [_ Hq]);
      destruct Hx as [-> | ->]; simpl; rewrite ?Hq; simpl; lia. }
  inversion Hcase as [e Hfail | key Hk Hc | key Hk Hc Hfiles
                     | key resume jd e fs'' rest Hk Hc Hr Hj Hproc
                     | key resume jd fs'' rest Hk Hc Hr Hj Hproc]; subst;
    rewrite ?api_requests_app;
    change (api_requests page_top) with (@nil str);
    change (api_requests page_sidebar) with (@nil str);
    rewrite ?app_nil_r; simpl; try lia;
    apply (Hp _ _ _ _ _ _ Hproc).
Qed.

(** The messages that can follow the request. *)
Lemma answered_error_kinds (rt : runtime) (self : ResumeScreeningModel)
    (prompt : str) (o : outcome unit) (tail : list event) (m : message) :
  answered rt self prompt o tail -> In m (errors_shown (tail ++ rescued o)) ->
  (exists e, m = Api_failed e) \/ m = No_response
  \/ (exists e, m = Json_parse_failed e) \/ (exists e, m = Processing_failed e).
Proof.
  destruct 1 as [msg Hcall Hmsg | msg Hcall Hmsg | Hcall
                | text Hcall Hne Hloads Htext | text Hcall Hne Hloads Htext
                | text f Hcall Hne Hloads Hf
                | text parsed shown Hcall Hne Hloads Hshown
                | text parsed e shown Hcall Hne Hloads Hshown];
    cbn [rescued]; rewrite ?app_nil_r; rewrite ?errors_shown_app;
    rewrite ?(displayed_no_errors _ _ _ Hshown); simpl;
    intuition (subst; eauto).
Qed.

(** The error messages of a run: which ones can occur, and that the
    decode error needs a job description no encoding decodes. *)
Lemma run_error_kinds (rt : runtime) (ses : session) (fs : gmap str file)
    (m : message) :
  In m (errors_shown (log_of (run rt ses fs))) ->
  match m with
  | Decode_failed =>
      exists jd_bytes, jd_file ses = Some jd_bytes
        /\ decode_loop rt encodings_to_try jd_bytes = None
  | Resume_text_empty | Upload_both | Evaluation_complete => False
  | _ => True
  end.
Proof.
  destruct (run_ran rt ses fs) as (o & fs' & log & Hrun & Hcase).
  rewrite Hrun. unfold log_of. cbn [snd].
  assert (Hsplit : forall top rest side,
            errors_shown top = [] -> errors_shown side = [] ->
            errors_shown (top ++ rest ++ side) = errors_shown rest).
  { intros top rest side Ht Hs.
    now rewrite !errors_shown_app, Ht, Hs, app_nil_r. }
  assert (Hp : forall self p data jd o' rest,
            processed rt self fs p data jd o' fs' rest ->
            jd_file ses = Some jd ->
            In m (errors_shown rest) ->
            match m with
            | Decode_failed =>
                exists jd_bytes, jd_file ses = Some jd_bytes
                  /\ decode_loop rt encodings_to_try jd_bytes = None
            | Resume_text_empty | Upload_both | Evaluation_complete => False
            | _ => True
            end).
  { intros self p data jd o' rest Hp Hjd.
    inversion Hp as [text reads Hx Hdec | text reads jd_text Hx Hdec Hblank
                    | text reads jd_text o1 tail Hx Hdec Hb1 Hb2 Htail]; subst;
      apply extract_reads in Hx;
      change (FsWrite p :: ?l) with ([FsWrite p] ++ l);
      rewrite !errors_shown_app.
    - destruct Hx as [-> | ->]; simpl; intros [<- | []]; eauto.
    - destruct Hx as [-> | ->]; simpl; intros [<- | []]; exact I.
    - assert (Hpre : errors_shown reads = []) by (destruct Hx as [-> | ->]; reflexivity).
      rewrite Hpre. simpl. intros Hin.
      destruct (answered_error_kinds _ _ _ _ _ _ Htail Hin)
        as [[e ->] | [-> | [[e ->] | [e ->]]]]; exact I. }
  inversion Hcase as [e Hfail | key Hk Hc | key Hk Hc Hfiles
                     | key resume jd e fs'' rest Hk Hc Hr Hj Hproc
                     | key resume jd fs'' rest Hk Hc Hr Hj Hproc]; subst.
  - simpl. intros [<- | [<- | []]]; exact I.
  - simpl. intros [].
  - simpl. intros [].
  - rewrite <- (app_nil_r rest), (Hsplit page_top rest []) by reflexivity.
    apply (Hp _ _ _ _ _ _ Hproc Hj).
  - rewrite (Hsplit page_top rest page_sidebar) by reflexivity.
    apply (Hp _ _ _ _ _ _ Hproc Hj).
Qed.

(** X11: the message for a resume without text ([Failed to extract text
    from resume]) is never shown, whatever the resume and whatever the
    libraries return: the handler's test of the resume text is dead. *)
Lemma resume_check_is_dead (rt : runtime) (ses : session) (fs : gmap str file) :
  ~ In (Ui (st_error Resume_text_empty)) (log_of (run rt ses fs)).
Proof.
  intros Hin.
  assert (Hshown : In Resume_text_empty (errors_shown (log_of (run rt ses fs)))).
  { clear -Hin. induction (log_of (run rt ses fs)) as [|ev log IH]; [easy|].
    destruct Hin as [-> | Hin]; [now left|].
    destruct ev as [| | | |c]; try destruct c; simpl; auto. }
  exact (run_error_kinds rt ses fs _ Hshown).
Qed.

(** Were no encoding to decode the job description, the run would stop
    with the temporary file still in place: [st.stop()] comes before
    [os.unlink].  With CPython's codecs this branch is never taken. *)
Lemma undecodable_leaves_tmp_file (rt : runtime) (ses : session)
    (self : ResumeScreeningModel) (resume : upload)
    (jd_bytes : list Byte.byte) (fs : gmap str file) :
  decode_loop rt encodings_to_try jd_bytes = None ->
  fs_of (process_files rt ses self resume jd_bytes fs) !! tmp_path ses resume
  = Some (upload_data resume).
Proof.
  intros Hnone.
  destruct (process_files_run rt ses self resume jd_bytes fs)
    as (o & fs' & log & Hrun & Hcase).
  rewrite Hrun. unfold fs_of. simpl.
  inversion Hcase; subst; try congruence. apply lookup_insert_eq.
Qed.

End AppFacts.

(** * Further facts about the extractor *)

Module ExtractMore.
Import Py Eff ExtractText ExtractSpec PyFacts ExtractFacts.

Lemma lstrip_all_space (s : str) : forallb isspace s = true -> lstrip s = [].
Proof.
  induction s as [|c s IH]; [reflexivity|]. simpl.
  intros H. apply andb_true_iff in H as [-> H]. auto.
Qed.

(** A text is blank exactly when every code point of it is white space. *)
Lemma strip_nil_iff (s : str) : strip s = [] <-> forallb isspace s = true.
Proof.
  split.
  - intros Hnil. apply forallb_forall. intros c Hin.
    destruct (isspace c) eqn:Hc; [reflexivity|].
    pose proof (strip_keeps s c Hin Hc) as Hkept. rewrite Hnil in Hkept.
    destruct Hkept.
  - intros Hall. unfold strip. now rewrite (lstrip_all_space s Hall).
Qed.

Lemma join_all_space (parts : list str) :
  forallb isspace (join nl parts) = forallb (forallb isspace) parts.
Proof.
  induction parts as [|p parts IH]; [reflexivity|].
  destruct parts as [|q parts].
  - simpl. now rewrite andb_true_r.
  - change (join nl (p :: q :: parts)) with (p ++ nl ++ join nl (q :: parts)).
    rewrite !forallb_app, IH. reflexivity.
Qed.

Lemma filter_nonempty_all_space (pages : list str) :
  forallb (forallb isspace) (List.filter truthy_str pages)
  = forallb (forallb isspace) pages.
Proof.
  induction pages as [|p pages IH]; [reflexivity|].
  destruct p as [|c p]; simpl; [exact IH|]. now rewrite IH.
Qed.

Lemma filter_nonblank_all_space (paragraphs : list str) :
  forallb (forallb isspace)
    (List.filter (fun t => truthy_str (strip t)) paragraphs)
  = match List.filter (fun t => truthy_str (strip t)) paragraphs with
    | [] => true
    | _ :: _ => false
    end.
Proof.
  induction paragraphs as [|p paragraphs IH]; [reflexivity|]. simpl.
  destruct (truthy_str (strip p)) eqn:Hp; [|exact IH].
  simpl. apply truthy_str_true in Hp.
  destruct (forallb isspace p) eqn:Hall; [|reflexivity].
  apply strip_nil_iff in Hall. contradiction.
Qed.

Lemma truthy_strip (s : str) : truthy_str (strip s) = negb (forallb isspace s).
Proof.
  destruct (forallb isspace s) eqn:Hall.
  - apply strip_nil_iff in Hall. now rewrite Hall.
  - destruct (strip s) eqn:Hs; [|reflexivity].
    apply strip_nil_iff in Hs. congruence.
Qed.

(** What the extractor returns for a valid DOCX and for a valid PDF. *)
Lemma extract_valid_docx (fs : gmap str file) (p : str) (paragraphs : list str) :
  valid_docx fs p paragraphs ->
  result_of (extract_text_from_file p fs)
  = Return (if truthy_str (strip (docx_text paragraphs))
            then docx_text paragraphs else no_text_in_document).
Proof.
  intros (f & Hf & Hsuffix & Hview).
  unfold extract_text_from_file, bind, try_except, os_path_exists, open_with, ret.
  rewrite Hf. simpl. rewrite Hsuffix, Hf, Hview. reflexivity.
Qed.

Lemma extract_valid_pdf (fs : gmap str file) (p : str) (pages : list str) :
  valid_pdf fs p pages ->
  result_of (extract_text_from_file p fs)
  = Return (if truthy_str (strip (pdf_text pages))
            then pdf_text pages else no_text_in_pdf).
Proof.
  intros (f & Hf & Hdocx & Hsuffix & Hview).
  unfold extract_text_from_file, bind, try_except, os_path_exists, open_with, ret.
  rewrite Hf. simpl. rewrite Hdocx, Hsuffix, Hf, Hview. reflexivity.
Qed.

(** X1: what [extract_text_from_file] returns always has a character
    other than white space in it, on every path and for every stored
    file: a caller's test for a blank result can never succeed. *)
Theorem extract_text_never_blank (fs : gmap str file) (p : str) :
  exists text,
    result_of (extract_text_from_file p fs) = Return text
    /\ strip text <> []
    /\ forallb isspace text = false.
Proof.
  destruct (extract_run fs p) as (text & reads & Hrun & _ & Hcase).
  exists text. rewrite Hrun. split; [reflexivity|].
  apply extraction_nonblank in Hcase. split; [exact Hcase|].
  destruct (forallb isspace text) eqn:Hall; [|reflexivity].
  apply strip_nil_iff in Hall. contradiction.
Qed.

(** X2: [extract_text_from_file] only reads: it leaves the file system as
    it found it, and it opens the file exactly once when the file exists
    and its name ends in [.docx] or [.pdf] (in any case), and not at all
    otherwise. *)
Theorem extract_text_only_reads (fs : gmap str file) (p : str) :
  fs_of (extract_text_from_file p fs) = fs
  /\ log_of (extract_text_from_file p fs)
     = if bool_decide (is_Some (fs !! p))
          && (endswith (lower p) (lit ".docx") || endswith (lower p) (lit ".pdf"))
       then [FsRead p] else [].
Proof.
  unfold extract_text_from_file, bind, try_except, os_path_exists, open_with, ret.
  destruct (fs !! p) as [f|] eqn:Hf; simpl; [|split; reflexivity].
  destruct (endswith (lower p) (lit ".docx")); simpl.
  - rewrite Hf. destruct (docx_paragraphs f); simpl; split; reflexivity.
  - destruct (endswith (lower p) (lit ".pdf")); simpl.
    + rewrite Hf. destruct (pdf_pages f); simpl; split; reflexivity.
    + split; reflexivity.
Qed.

(** X3: for a DOCX that python-docx reads, the result is the paragraphs
    that are not blank, in their order, joined by newlines; blank
    paragraphs are dropped, and the placeholder is returned exactly when
    no paragraph is left. *)
Theorem docx_keeps_nonblank_paragraphs (fs : gmap str file) (p : str)
    (paragraphs : list str) :
  valid_docx fs p paragraphs ->
  result_of (extract_text_from_file p fs)
  = Return match List.filter (fun t => negb (forallb isspace t)) paragraphs with
           | [] => no_text_in_document
           | kept => join nl kept
           end.
Proof.
  intros Hvalid. rewrite (extract_valid_docx fs p paragraphs Hvalid).
  unfold docx_text.
  assert (Hfilter : List.filter (fun t => truthy_str (strip t)) paragraphs
                    = List.filter (fun t => negb (forallb isspace t)) paragraphs).
  { apply filter_ext. intros t. apply truthy_strip. }
  rewrite truthy_strip, join_all_space, filter_nonblank_all_space, Hfilter.
  destruct (List.filter (fun t => negb (forallb isspace t)) paragraphs);
    reflexivity.
Qed.

Lemma docx_keeps_nonblank_paragraphs_witness :
  let fs : gmap str file :=
    {[ lit "/tmp/cv.docx"
       := File (inr [lit "Python"; lit "  "; []; lit "Django"]) (inl []) ]} in
  valid_docx fs (lit "/tmp/cv.docx") [lit "Python"; lit "  "; []; lit "Django"]
  /\ result_of (extract_text_from_file (lit "/tmp/cv.docx") fs)
     = Return (lit "Python" ++ nl ++ lit "Django").
Proof.
  intros fs.
  assert (H : valid_docx fs (lit "/tmp/cv.docx")
                [lit "Python"; lit "  "; []; lit "Django"]).
  { eexists. repeat split; vm_compute; reflexivity. }
  split; [exact H|].
  exact (docx_keeps_nonblank_paragraphs fs (lit "/tmp/cv.docx") _ H).
Defined.

(** X4: for a PDF that pypdf reads, the placeholder is returned exactly
    when every page text consists of white space only; otherwise the
    result is the non-empty page texts joined by newlines, in which a page
    of nothing but white space is kept. *)
Theorem pdf_placeholder_iff_blank (fs : gmap str file) (p : str)
    (pages : list str) :
  valid_pdf fs p pages ->
  result_of (extract_text_from_file p fs)
  = Return (if forallb (forallb isspace) pages
            then no_text_in_pdf
            else join nl (List.filter truthy_str pages)).
Proof.
  intros Hvalid. rewrite (extract_valid_pdf fs p pages Hvalid).
  unfold pdf_text.
  rewrite truthy_strip, join_all_space, filter_nonempty_all_space.
  destruct (forallb (forallb isspace) pages); reflexivity.
Qed.

Lemma pdf_placeholder_iff_blank_witness :
  let fs : gmap str file :=
    {[ lit "/tmp/cv.PDF"
       := File (inl []) (inr [lit "Python"; []; lit " "; lit "Django"]) ]} in
  valid_pdf fs (lit "/tmp/cv.PDF") [lit "Python"; []; lit " "; lit "Django"]
  /\ result_of (extract_text_from_file (lit "/tmp/cv.PDF") fs)
     = Return (lit "Python" ++ nl ++ lit " " ++ nl ++ lit "Django").
Proof.
  intros fs.
  assert (H : valid_pdf fs (lit "/tmp/cv.PDF")
                [lit "Python"; []; lit " "; lit "Django"]).
  { eexists. repeat split; vm_compute; reflexivity. }
  split; [exact H|].
  exact (pdf_placeholder_iff_blank fs (lit "/tmp/cv.PDF") _ H).
Defined.

(** X5: the result does not tell an error from content.  For every path
    with the suffix [.docx] there is a stored document for which the
    extractor returns exactly what it returns when no file is stored
    there at all. *)
Theorem placeholder_is_ambiguous (p : str) :
  endswith (lower p) (lit ".docx") = true ->
  exists f : file,
    result_of (extract_text_from_file p {[ p := f ]})
    = result_of (extract_text_from_file p ∅).
Proof.
  intros Hsuffix. exists (File (inr [file_not_found]) (inl [])).
  assert (Hvalid : valid_docx {[ p := File (inr [file_not_found]) (inl []) ]} p
                     [file_not_found]).
  { eexists. split; [apply lookup_singleton_eq|]. split; [exact Hsuffix|reflexivity]. }
  rewrite (extract_valid_docx _ _ _ Hvalid).
  unfold extract_text_from_file, bind, os_path_exists, ret.
  rewrite lookup_empty. reflexivity.
Qed.

Lemma placeholder_is_ambiguous_witness :
  endswith (lower (lit "/tmp/cv.docx")) (lit ".docx") = true
  /\ exists f : file,
       result_of (extract_text_from_file (lit "/tmp/cv.docx") {[ lit "/tmp/cv.docx" := f ]})
       = result_of (extract_text_from_file (lit "/tmp/cv.docx") ∅).
Proof.
  split; [reflexivity|].
  exact (placeholder_is_ambiguous (lit "/tmp/cv.docx") eq_refl).
Defined.

End ExtractMore.

(** * Further facts about the script *)

Module AppMore.
Import Py Eff Codecs ExtractText ExtractSpec ResumeScreening App AppSpec.
Import PyFacts CodecFacts ExtractFacts AppFacts ExtractMore.

(** X6: with CPython's codecs the decode loop never ends without a text,
    and the entries ['utf-8-sig'] and ['cp1252'] of [encodings_to_try]
    never decide: the loop over the three remaining names returns the same
    text for every byte string. *)
Theorem decode_loop_needs_three_encodings (jd_bytes : list Byte.byte) :
  is_Some (decode_loop cpython encodings_to_try jd_bytes)
  /\ decode_loop cpython encodings_to_try jd_bytes
     = decode_loop cpython [utf_8; windows_1252; iso_8859_1] jd_bytes.
Proof.
  pose proof (cpython_decode_loop jd_bytes) as H. cbv zeta in H.
  split; [rewrite H; eauto|].
  rewrite H. simpl.
  destruct (utf8_decode (map Byte.to_N jd_bytes)); [reflexivity|].
  destruct (cp1252_decode (map Byte.to_N jd_bytes)); reflexivity.
Qed.

(** X7: a job description that starts with the UTF-8 byte-order mark and
    is UTF-8 after it is decoded by ['utf-8'], not by ['utf-8-sig']: the
    mark stays in the text as U+FEFF.  Such a text never counts as blank,
    even when nothing follows the mark. *)
Theorem byte_order_mark_is_kept (rest : list Byte.byte) (text : str) :
  utf8_decode (map Byte.to_N rest) = Some text ->
  decode_loop cpython encodings_to_try
    (Byte.xef :: Byte.xbb :: Byte.xbf :: rest)
  = Some (0xFEFF%N :: text)
  /\ blank (0xFEFF%N :: text) = false.
Proof.
  intros Hrest. split.
  - rewrite cpython_decode_loop. cbv zeta.
    change (map Byte.to_N (Byte.xef :: Byte.xbb :: Byte.xbf :: rest))
      with (bom ++ map Byte.to_N rest).
    rewrite (utf8_decode_bom (bom ++ map Byte.to_N rest)) by reflexivity.
    change (drop 3 (bom ++ map Byte.to_N rest)) with (map Byte.to_N rest).
    rewrite Hrest. reflexivity.
  - apply blank_false. split; [discriminate|].
    apply strip_cons_nonblank. reflexivity.
Qed.

Lemma byte_order_mark_is_kept_witness :
  utf8_decode (map Byte.to_N []) = Some []
  /\ decode_loop cpython encodings_to_try [Byte.xef; Byte.xbb; Byte.xbf]
     = Some [0xFEFF%N]
  /\ blank [0xFEFF%N] = false.
Proof.
  split; [reflexivity|].
  exact (byte_order_mark_is_kept [] [] eq_refl).
Defined.

(** X8: where ISO 8859-1 decodes every byte string, as CPython's codec
    does, no run shows the message for an undecodable job description:
    the branch with [st.stop()] in the handler is never taken. *)
Theorem decode_error_is_never_shown (rt : runtime) (ses : session)
    (fs : gmap str file) :
  (forall b, is_Some (decode rt iso_8859_1 b)) ->
  ~ In Decode_failed (errors_shown (log_of (run rt ses fs))).
Proof.
  intros Hlatin Hin. apply run_error_kinds in Hin as (jd & _ & Hnone).
  destruct (decode_loop_total rt jd Hlatin) as [text Htext]. congruence.
Qed.

Lemma decode_error_is_never_shown_witness :
  (forall b, is_Some (decode cpython iso_8859_1 b))
  /\ ~ In Decode_failed
       (errors_shown (log_of (run cpython (sample_session (inr sample_response)) ∅))).
Proof.
  split; [exact cpython_latin1_total|].
  exact (decode_error_is_never_shown cpython (sample_session (inr sample_response)) ∅
           cpython_latin1_total).
Defined.



(** X12: a run changes nothing in the file system but the temporary file:
    every other path holds after the run what it held before, however the
    run ends. *)
Theorem run_touches_only_tmp_file (rt : runtime) (ses : session)
    (fs : gmap str file) (q : str) :
  (forall resume, resume_file ses = Some resume -> q <> tmp_path ses resume) ->
  fs_of (run rt ses fs) !! q = fs !! q.
Proof.
  intros Hq.
  destruct (run_ran rt ses fs) as (o & fs' & log & Hrun & Hcase).
  rewrite Hrun. unfold fs_of. cbn [fst snd].
  assert (Hp : forall self resume jd o' rest,
            resume_file ses = Some resume ->
            processed rt self fs (tmp_path ses resume) (upload_data resume) jd
              o' fs' rest ->
            fs' !! q = fs !! q).
  { intros self resume jd o' rest Hr Hp. specialize (Hq resume Hr).
    inversion Hp; subst.
    - now apply lookup_insert_ne.
    - now apply lookup_delete_ne.
    - now apply lookup_delete_ne. }
  inversion Hcase as [Hmiss | key Hk Hc | key Hk Hc Hfiles
                     | key resume jd e fs'' rest Hk Hc Hr Hj Hproc
                     | key resume jd fs'' rest Hk Hc Hr Hj Hproc]; subst;
    try reflexivity; eapply Hp; eauto.
Qed.

Lemma run_touches_only_tmp_file_witness :
  let ses := sample_session (inr sample_response) in
  let fs : gmap str file := {[ lit "/tmp/other.pdf" := scanned_pdf ]} in
  (forall resume, resume_file ses = Some resume ->
     lit "/tmp/other.pdf" <> tmp_path ses resume)
  /\ fs_of (run cpython ses fs) !! lit "/tmp/other.pdf" = Some scanned_pdf.
Proof.
  intros ses fs.
  assert (H : forall resume, resume_file ses = Some resume ->
                lit "/tmp/other.pdf" <> tmp_path ses resume).
  { intros resume [= <-]. vm_compute. discriminate. }
  split; [exact H|].
  rewrite (run_touches_only_tmp_file cpython ses fs (lit "/tmp/other.pdf") H).
  reflexivity.
Defined.

(** X13: with a model, a run without a click, or with a click while a
    file is missing, writes nothing, requests nothing and shows no error:
    the page is the uploaders and the button, the warning to upload both
    files when the button was clicked, and the sidebar. *)
Theorem run_without_both_files (rt : runtime) (ses : session)
    (fs : gmap str file) (key : str) :
  key_found ses key ->
  button_clicked ses = false \/ resume_file ses = None \/ jd_file ses = None ->
  run rt ses fs
  = (Return tt, fs,
     page_top
     ++ (if button_clicked ses then [Ui (st_warning Upload_both)] else [])
     ++ page_sidebar).
Proof.
  intros [Hlook Hne] Hcase.
  unfold run, app, load_model, init. rewrite Hlook.
  apply truthy_str_true in Hne. rewrite Hne.
  unfold try_except, bind, ret, st, emit, sidebar, evaluate. simpl.
  destruct (button_clicked ses); [|reflexivity].
  destruct Hcase as [Hc | [Hr | Hj]]; [discriminate | |].
  - rewrite Hr. reflexivity.
  - rewrite Hj. destruct (resume_file ses); reflexivity.
Qed.

Lemma run_without_both_files_witness :
  let ses := Session sample_settings (fun _ => inr sample_response)
               (Some sample_resume) None true (lit "/tmp/tmpk3x9") in
  key_found ses (lit "secret")
  /\ run cpython ses ∅
     = (Return tt, ∅, page_top ++ [Ui (st_warning Upload_both)] ++ page_sidebar).
Proof.
  intros ses.
  assert (Hkey : key_found ses (lit "secret"))
    by (split; [reflexivity | discriminate]).
  split; [exact Hkey|].
  exact (run_without_both_files cpython ses ∅ (lit "secret") Hkey
           (or_intror (or_intror eq_refl))).
Defined.

(** X14: a run ends in one of two ways.  Either the script runs to its
    end, and the last thing on the page is the sidebar; or [st.stop()]
    ends it, and then the last thing shown is an error message (the model
    could not be loaded, or the job description could not be decoded) and
    the sidebar is not rendered.  No other exception leaves the script. *)
Theorem run_ends_with_sidebar_or_stop (rt : runtime) (ses : session)
    (fs : gmap str file) :
  (result_of (run rt ses fs) = Return tt
   /\ exists shown, log_of (run rt ses fs) = shown ++ page_sidebar)
  \/ (result_of (run rt ses fs) = Raise (Exn StopException [])
      /\ (last (log_of (run rt ses fs)) = Some (Ui (st_error Load_failed))
          \/ last (log_of (run rt ses fs)) = Some (Ui (st_error Decode_failed)))
      /\ ~ In (Ui st_sidebar) (log_of (run rt ses fs))).
Proof.
  destruct (run_ran rt ses fs) as (o & fs' & log & Hrun & Hcase).
  rewrite Hrun. unfold result_of, log_of. cbn [fst snd].
  inversion Hcase as [Hmiss | key Hk Hc | key Hk Hc Hfiles
                     | key resume jd e fs'' rest Hk Hc Hr Hj Hproc
                     | key resume jd fs'' rest Hk Hc Hr Hj Hproc]; subst.
  - right. split; [reflexivity|]. split; [now left|].
    simpl. intuition discriminate.
  - left. split; [reflexivity|]. now exists page_top.
  - left. split; [reflexivity|].
    exists (page_top ++ [Ui (st_warning Upload_both)]).
    now rewrite <- app_assoc.
  - right. inversion Hproc as [text reads Hx Hdec | |]; subst.
    apply extract_reads in Hx. split; [reflexivity|].
    destruct Hx as [-> | ->]; (split; [now right|]); simpl; intuition discriminate.
  - left. split; [reflexivity|]. exists (page_top ++ rest).
    now rewrite <- app_assoc.
Qed.

(** X15: when the response parses to something that is not an object (a
    list, a number, a string, [null]), the page shows the success banner
    and then the message for a failed API call, carrying the
    [AttributeError] of the first [.get]: the request itself had
    succeeded. *)
Theorem non_object_response_shown_as_api_error (rt : runtime)
    (self : ResumeScreeningModel) (resume_text jd_text result_text : str)
    (parsed : json) (fs : gmap str file) :
  resume_text <> [] -> jd_text <> [] ->
  model self (build_prompt resume_text jd_text) = inr result_text ->
  result_text <> [] ->
  json_loads rt (clean result_text) = inr parsed ->
  (forall d, parsed <> JDict d) ->
  run_evaluation rt self resume_text jd_text fs
  = (Return tt, fs,
     [ Ui (st_spinner spinner_text);
       ApiRequest (build_prompt resume_text jd_text);
       Ui (st_success Evaluation_complete);
       Ui (st_columns 3);
       Ui (st_error (Api_failed (Exn AttributeError
             (lit "'" ++ type_name parsed ++ lit "' object has no attribute 'get'")))) ]).
Proof.
  intros Hr Hj Hcall Hne Hloads Hobj.
  assert (Hpost : postprocess rt result_text fs
                  = (Raise (Exn AttributeError
                       (lit "'" ++ type_name parsed
                        ++ lit "' object has no attribute 'get'")),
                     fs,
                     [Ui (st_success Evaluation_complete); Ui (st_columns 3)])).
  { unfold postprocess, try_except, bind, loads. rewrite Hloads. unfold ret.
    cbv beta iota. unfold display, bind. st_steps.
    destruct parsed as [| | | | | |d]; try reflexivity. now destruct (Hobj d). }
  apply truthy_str_true in Hr, Hj, Hne.
  unfold run_evaluation, screen_resume, generate_content.
  rewrite Hr, Hj. simpl negb. simpl orb. cbv iota.
  unfold bind. st_steps. unfold try_except at 1. unfold try_except, bind, raise.
  rewrite Hcall. cbv beta iota. rewrite Hne, Hpost.
  cbn [is_Exception exn_cls]. cbv iota.
  rewrite st_taken
    by (rewrite error_accepted; cbn [exn_str];
        now rewrite !encodable_app, type_name_encodable).
  reflexivity.
Qed.

Lemma non_object_response_shown_as_api_error_witness :
  let self := Model (lit "secret") (fun _ => inr (lit "[]")) in
  json_loads cpython (clean (lit "[]")) = inr (JList [])
  /\ errors_shown
       (log_of (run_evaluation cpython self (lit "Python developer") (lit "Python") ∅))
     = [Api_failed (Exn AttributeError
                      (lit "'list' object has no attribute 'get'"))].
Proof.
  intros self.
  assert (H : json_loads cpython (clean (lit "[]")) = inr (JList []))
    by (vm_compute; reflexivity).
  split; [exact H|].
  rewrite (non_object_response_shown_as_api_error cpython self
             (lit "Python developer") (lit "Python") (lit "[]") (JList []) ∅).
  - reflexivity.
  - discriminate.
  - discriminate.
  - reflexivity.
  - discriminate.
  - exact H.
  - discriminate.
Defined.

Lemma shown_items_chars (s : str) :
  shown_items (map (fun c => JStr [c]) s)
  = map (fun c => JStr [c]) (encodable_prefix s)
  /\ forallb shows_encodable (map (fun c => JStr [c]) s) = encodable s.
Proof.
  induction s as [|c s [IH1 IH2]]; [split; reflexivity|].
  cbn [map shown_items forallb encodable_prefix shows_encodable encodable].
  rewrite andb_true_r.
  destruct (is_surrogate c); cbn [negb andb map]; [split; reflexivity|].
  rewrite IH1. split; [reflexivity | exact IH2].
Qed.

(** X16: skills given as one string are shown one bullet for each
    character of it, since the loop iterates over whatever the field
    holds; at the first character that is a lone surrogate the loop
    breaks off with the encoding error, the bullets before it shown. *)
Theorem string_skills_shown_per_character (skills none_text : str)
    (fs : gmap str file) :
  skills <> [] ->
  show_skills (JStr skills) none_text fs
  = (if encodable skills then Return tt else Raise unencodable,
     fs,
     map (fun c => Ui (st_write_bullet (JStr [c]))) (encodable_prefix skills)).
Proof.
  intros Hne. destruct skills as [|c skills]; [contradiction|].
  unfold show_skills. cbn [truthy truthy_str iterate].
  rewrite for_each_bullets.
  destruct (shown_items_chars (c :: skills)) as [-> ->].
  unfold bullets. now rewrite map_map.
Qed.

Lemma string_skills_shown_per_character_witness :
  lit "Go" <> []
  /\ show_skills (JStr (lit "Go")) no_matched_skills ∅
     = (Return tt, ∅,
        [ Ui (st_write_bullet (JStr (lit "G")));
          Ui (st_write_bullet (JStr (lit "o"))) ])
  /\ show_skills (JStr (lit "C" ++ [0xD83D%N] ++ lit "#")) no_matched_skills ∅
     = (Raise unencodable, ∅, [ Ui (st_write_bullet (JStr (lit "C"))) ]).
Proof.
  assert (H : lit "Go" <> []) by discriminate.
  assert (H' : lit "C" ++ [0xD83D%N] ++ lit "#" <> []) by discriminate.
  split; [exact H|]. split.
  - exact (string_skills_shown_per_character (lit "Go") no_matched_skills ∅ H).
  - exact (string_skills_shown_per_character (lit "C" ++ [0xD83D%N] ++ lit "#")
             no_matched_skills ∅ H').
Defined.

End AppMore.

(** * Further facts about cleaning, screening and the self-test *)

Module ScreeningMore.
Import Py Eff Codecs ExtractText ExtractSpec ResumeScreening App AppSpec.
Import NameSpec PyFacts ExtractFacts AppFacts ExtractMore.

Lemma startswith_prefix (p q s : str) :
  startswith (p ++ q) s = true -> startswith p s = true.
Proof.
  revert s. induction p as [|a p IH]; intros s; [now destruct s|].
  destruct s as [|b s]; [discriminate|].
  change ((a :: p) ++ q) with (a :: (p ++ q)). rewrite !startswith_cons.
  intros H. apply andb_true_iff in H as [-> H]. now apply IH.
Qed.

Lemma occurs_step (p : str) (c : N) (s : str) :
  occurs p (c :: s) = startswith p (c :: s) || occurs p s.
Proof. reflexivity. Qed.

(** Where a pattern does not occur, no longer pattern does. *)
Lemma occurs_longer (p q s : str) :
  occurs p s = false -> occurs (p ++ q) s = false.
Proof.
  induction s as [|c s IH].
  - simpl. rewrite !orb_false_r. intros H.
    destruct (startswith (p ++ q) []) eqn:Hs; [|reflexivity].
    apply startswith_prefix in Hs. congruence.
  - rewrite !occurs_step. intros H. apply orb_false_iff in H as [H1 H2].
    rewrite (IH H2), orb_false_r.
    destruct (startswith (p ++ q) (c :: s)) eqn:Hs; [|reflexivity].
    apply startswith_prefix in Hs. congruence.
Qed.

(** [replace] changes nothing where the pattern does not occur. *)
Lemma replace_absent (s old new : str) :
  occurs old s = false -> replace s old new = s.
Proof.
  unfold replace. induction s as [|c s IH]; [reflexivity|].
  rewrite occurs_step. intros H. apply orb_false_iff in H as [H1 H2].
  change (replace_from old new 0 (c :: s))
    with (if startswith old (c :: s)
          then new ++ replace_from old new (length old - 1) s
          else c :: replace_from old new 0 s).
  rewrite H1, (IH H2). reflexivity.
Qed.

Lemma lstrip_snoc (s : str) (c : N) :
  isspace c = false -> lstrip (s ++ [c]) = lstrip s ++ [c].
Proof.
  intros Hc. induction s as [|a s IH]; simpl; [now rewrite Hc|].
  destruct (isspace a); [exact IH | reflexivity].
Qed.

Lemma rstrip_cons (c : N) (s : str) :
  isspace c = false -> rstrip (c :: s) = c :: rstrip s.
Proof.
  intros Hc. unfold rstrip. simpl rev.
  rewrite (lstrip_snoc _ _ Hc), rev_app_distr. reflexivity.
Qed.

Lemma lstrip_cases (s : str) :
  lstrip s = [] \/ exists c t, lstrip s = c :: t /\ isspace c = false.
Proof.
  induction s as [|a s IH]; [now left|]. simpl.
  destruct (isspace a) eqn:Ha; [exact IH|]. right. eauto.
Qed.

Lemma lstrip_idempotent (s : str) : lstrip (lstrip s) = lstrip s.
Proof.
  destruct (lstrip_cases s) as [-> | (c & t & -> & Hc)]; [reflexivity|].
  simpl. now rewrite Hc.
Qed.

Lemma rstrip_idempotent (s : str) : rstrip (rstrip s) = rstrip s.
Proof.
  unfold rstrip. now rewrite rev_involutive, lstrip_idempotent.
Qed.

Lemma strip_idempotent (s : str) : strip (strip s) = strip s.
Proof.
  unfold strip at 2. unfold strip.
  destruct (lstrip_cases s) as [-> | (c & t & -> & Hc)]; [reflexivity|].
  rewrite (rstrip_cons _ _ Hc). simpl lstrip. rewrite Hc.
  now rewrite (rstrip_cons _ _ Hc), rstrip_idempotent.
Qed.

Lemma clean_unfold (result_text : str) :
  clean result_text
  = strip (replace (replace result_text (fence ++ (lit "json" ++ nl)) []) fence []).
Proof. reflexivity. Qed.

(** X17: cleaning a response a second time changes nothing: once the
    fence markers are gone and the ends are trimmed, [clean] is the
    identity. *)
Theorem clean_is_idempotent (result_text : str) :
  clean (clean result_text) = clean result_text.
Proof.
  pose proof (clean_has_no_fence result_text) as Hfree.
  rewrite (clean_unfold (clean result_text)).
  rewrite (replace_absent (clean result_text) (fence ++ _) [])
    by now apply occurs_longer.
  rewrite (replace_absent (clean result_text) fence []) by exact Hfree.
  rewrite clean_unfold. apply strip_idempotent.
Qed.

(** X18: a response without any code-fence marker is only trimmed: the
    text handed to [json.loads] is the response without the white space at
    its two ends. *)
Theorem clean_without_fence_only_trims (result_text : str) :
  occurs fence result_text = false ->
  clean result_text = strip result_text.
Proof.
  intros Hfree. rewrite clean_unfold.
  rewrite (replace_absent result_text (fence ++ _) [])
    by now apply occurs_longer.
  now rewrite (replace_absent result_text fence []).
Qed.

Lemma clean_without_fence_only_trims_witness :
  occurs fence (lit "  {}  ") = false
  /\ clean (lit "  {}  ") = lit "{}".
Proof.
  split; [reflexivity|].
  exact (clean_without_fence_only_trims (lit "  {}  ") eq_refl).
Defined.

Lemma replace_from_deletes (old : str) (k : nat) (s : str) :
  sublist (replace_from old [] k s) s.
Proof.
  revert k. induction s as [|c s IH]; intros k; [destruct k; constructor|].
  destruct k as [|k].
  - change (replace_from old [] 0 (c :: s))
      with (if startswith old (c :: s)
            then [] ++ replace_from old [] (length old - 1) s
            else c :: replace_from old [] 0 s).
    destruct (startswith old (c :: s)).
    + apply sublist_cons, IH.
    + apply sublist_skip, IH.
  - apply sublist_cons, IH.
Qed.

Lemma strip_deletes (s : str) : sublist (strip s) s.
Proof.
  unfold strip.
  destruct (rstrip_prefix (lstrip s)) as [suffix H1].
  destruct (lstrip_suffix s) as [prefix H2].
  rewrite H2 at 2. apply sublist_inserts_l.
  rewrite H1 at 2. apply sublist_inserts_r. reflexivity.
Qed.

(** X19: cleaning only deletes: the cleaned text is the response with
    some of its characters left out, the others in their order; nothing is
    added or changed, and the cleaned text is no longer than the
    response. *)
Theorem clean_only_deletes (result_text : str) :
  sublist (clean result_text) result_text
  /\ length (clean result_text) <= length result_text.
Proof.
  assert (H : sublist (clean result_text) result_text).
  { unfold clean, replace.
    etransitivity; [apply strip_deletes|].
    etransitivity; apply replace_from_deletes. }
  split; [exact H | now apply sublist_length].
Qed.

Lemma screen_resume_nonempty (self : ResumeScreeningModel)
    (resume_text jd_text : str) (fs : gmap str file) :
  resume_text <> [] -> jd_text <> [] ->
  screen_resume self resume_text jd_text fs
  = (match model self (build_prompt resume_text jd_text) with
     | inr text => Return text
     | inl msg => Raise (Exn PlainException (api_error_prefix ++ msg))
     end,
     fs, [ApiRequest (build_prompt resume_text jd_text)]).
Proof.
  intros Hr Hj. apply truthy_str_true in Hr, Hj.
  unfold screen_resume, generate_content, try_except, raise.
  rewrite Hr, Hj. simpl negb. simpl orb. cbv iota.
  destruct (model self (build_prompt resume_text jd_text)); reflexivity.
Qed.

(** X20: an empty key in the Streamlit secrets shadows the key of the
    environment: [get] returns the secret because it is present, the
    fallback is not consulted, [__init__] raises and the script stops,
    whatever the environment holds. *)
Theorem empty_secret_shadows_environment (rt : runtime) (ses : session)
    (fs : gmap str file) :
  secrets (config ses) !! "GEMINI_API_KEY"%string = @Some str [] ->
  init (config ses) (gemini ses) fs = (Raise (Exn ValueError key_missing), fs, [])
  /\ run rt ses fs
     = (Raise (Exn StopException []), fs,
        startup_failure (Exn ValueError key_missing)).
Proof.
  intros Hsecret.
  assert (Hfail : init_fails ses (Exn ValueError key_missing)).
  { right. split; [|reflexivity]. right.
    unfold secrets, lookup_api_key in *.
    destruct (secrets_toml (config ses)) as [entries|]; [|discriminate].
    change (entries !! "GEMINI_API_KEY"%string = @Some str []) in Hsecret.
    now rewrite Hsecret. }
  exact (startup_stops rt ses fs _ Hfail).
Qed.

Lemma empty_secret_shadows_environment_witness :
  let cfg := Settings (Some {[ "GEMINI_API_KEY"%string := [] ]})
                      {[ "GEMINI_API_KEY"%string := lit "secret" ]} in
  let ses := Session cfg (fun _ => inr sample_response) None None false
               (lit "/tmp/tmpk3x9") in
  secrets cfg !! "GEMINI_API_KEY"%string = @Some str []
  /\ environ cfg !! "GEMINI_API_KEY"%string = Some (lit "secret")
  /\ result_of (run cpython ses ∅) = Raise (Exn StopException []).
Proof.
  intros cfg ses.
  assert (H : secrets (config ses) !! "GEMINI_API_KEY"%string = @Some str [])
    by reflexivity.
  split; [exact H|]. split; [reflexivity|].
  rewrite (proj2 (empty_secret_shadows_environment cpython ses ∅ H)).
  reflexivity.
Defined.

(** X23: the prompt does not delimit its two inputs: they are pasted in
    as they are.  A job description that contains the text the template
    puts between the two sections gives the same prompt as a different
    pair of inputs, in which the job description ends where that text
    starts and what follows it has become part of the resume:
    [build_prompt] is not injective. *)
Theorem prompt_sections_can_be_forged (a b c : str) :
  build_prompt c (a ++ prompt_middle ++ b)
  = build_prompt (b ++ prompt_middle ++ c) a
  /\ a ++ prompt_middle ++ b <> a
  /\ c <> b ++ prompt_middle ++ c.
Proof.
  assert (Hm : 0 < length prompt_middle) by (vm_compute; lia).
  split; [|split].
  - unfold build_prompt. now rewrite <- !app_assoc.
  - intros H. apply (f_equal (@length N)) in H.
    rewrite !length_app in H. lia.
  - intros H. apply (f_equal (@length N)) in H.
    rewrite !length_app in H. lia.
Qed.

(** ** From the name of the upload to the library that reads it *)

Lemma last_component_no_slash (acc t : str) :
  forallb no_slash t = true -> last_component acc t = acc.
Proof.
  revert acc. induction t as [|c t IH]; intros acc; [reflexivity|].
  simpl. intros H. apply andb_true_iff in H as [Hc Ht].
  unfold no_slash in Hc. apply negb_true_iff in Hc. rewrite Hc. now apply IH.
Qed.

Lemma last_component_app (acc s t : str) :
  forallb no_slash t = true ->
  last_component (acc ++ t) (s ++ t) = last_component acc s ++ t.
Proof.
  intros Ht. revert acc. induction s as [|c s IH]; intros acc.
  - now apply last_component_no_slash.
  - simpl. destruct (c =? 0x2F)%N; apply IH.
Qed.

Lemma ext_of_no_dot (seen : bool) (best e : str) :
  forallb no_dot e = true -> ext_of seen best e = best.
Proof.
  revert seen. induction e as [|c e IH]; intros seen; [reflexivity|].
  simpl. intros H. apply andb_true_iff in H as [Hc He].
  unfold no_dot in Hc. apply negb_true_iff in Hc. rewrite Hc. now apply IH.
Qed.

Lemma ext_of_last_dot (seen : bool) (best name e : str) :
  forallb no_dot e = true ->
  seen = true \/ existsb no_dot name = true ->
  ext_of seen best (name ++ 0x2E%N :: e) = 0x2E%N :: e.
Proof.
  intros He. revert seen best.
  induction name as [|c name IH]; intros seen best Hseen.
  - destruct Hseen as [-> | Hex]; [|discriminate].
    simpl. now apply ext_of_no_dot.
  - simpl. destruct (c =? 0x2E)%N eqn:Hc.
    + apply IH. destruct Hseen as [-> | Hex]; [now left|].
      simpl in Hex. unfold no_dot at 1 in Hex. rewrite Hc in Hex. now right.
    + apply IH. now left.
Qed.

(** The extension of [stem.ext], for an extension without dot or slash
    behind a name that is not made of dots only. *)
Lemma splitext_ext_of_name (stem e : str) :
  forallb no_dot e = true -> forallb no_slash e = true ->
  existsb no_dot (last_component stem stem) = true ->
  splitext_ext (stem ++ 0x2E%N :: e) = 0x2E%N :: e.
Proof.
  intros Hdot Hslash Hname. unfold splitext_ext.
  rewrite (last_component_app stem stem (0x2E%N :: e))
    by (simpl; now rewrite Hslash).
  apply ext_of_last_dot; auto.
Qed.

(** A code point that lowers to a small letter is neither dot nor slash. *)
Lemma lower_char_letter (c : N) :
  (0x61 <=? lower_char c)%N = true -> no_dot c = true /\ no_slash c = true.
Proof.
  unfold lower_char, no_dot, no_slash. intros H.
  assert (Hc : (0x41 <= c)%N).
  { destruct ((0x41 <=? c) && (c <=? 0x5A))%N eqn:Hup.
    - apply andb_true_iff in Hup as [Hlo _]. now apply N.leb_le in Hlo.
    - apply N.leb_le in H. lia. }
  split; apply negb_true_iff, N.eqb_neq; lia.
Qed.

Lemma lowers_to_letters (e : str) :
  forallb (fun x => (0x61 <=? x)%N) (lower e) = true ->
  forallb no_dot e = true /\ forallb no_slash e = true.
Proof.
  induction e as [|c e IH]; [auto|]. simpl.
  intros H. apply andb_true_iff in H as [Hc He].
  destruct (lower_char_letter c Hc) as [-> ->]. now apply IH.
Qed.

Lemma startswith_self_app (p s : str) : startswith p (p ++ s) = true.
Proof.
  induction p as [|a p IH]; [now destruct s|].
  change ((a :: p) ++ s) with (a :: (p ++ s)).
  now rewrite startswith_cons, N.eqb_refl, IH.
Qed.

Lemma endswith_app (s suffix : str) : endswith (s ++ suffix) suffix = true.
Proof. unfold endswith. rewrite rev_app_distr. apply startswith_self_app. Qed.

Lemma lower_with_extension (tmp e : str) :
  lower (tmp ++ 0x2E%N :: e) = lower tmp ++ 0x2E%N :: lower e.
Proof. unfold lower. now rewrite map_app. Qed.

(** X21: the library that reads the temporary file is chosen by the
    extension of the uploaded file's name, in any case, and by nothing
    else: an upload named [stem.pdf] is read with pypdf and one named
    [stem.docx] with python-docx, whatever name [tempfile] picks, and the
    result is what that library's text gives. *)
Theorem upload_extension_selects_library (ses : session) (resume : upload)
    (stem ext : str) (texts : list str) (fs : gmap str file) :
  upload_name resume = stem ++ 0x2E%N :: ext ->
  existsb no_dot (last_component stem stem) = true ->
  lower ext = lit "pdf" \/ lower ext = lit "docx" ->
  let p := tmp_path ses resume in
  let fs' := <[p := upload_data resume]> fs in
  p = tmp_name ses ++ 0x2E%N :: ext
  /\ (lower ext = lit "pdf" ->
      pdf_pages (upload_data resume) = inr texts ->
      result_of (extract_text_from_file p fs')
      = Return (if truthy_str (strip (pdf_text texts))
                then pdf_text texts else no_text_in_pdf))
  /\ (lower ext = lit "docx" ->
      docx_paragraphs (upload_data resume) = inr texts ->
      result_of (extract_text_from_file p fs')
      = Return (if truthy_str (strip (docx_text texts))
                then docx_text texts else no_text_in_document)).
Proof.
  intros Hname Hstem Hext p fs'.
  assert (Hletters : forallb no_dot ext = true /\ forallb no_slash ext = true).
  { apply lowers_to_letters. destruct Hext as [-> | ->]; reflexivity. }
  destruct Hletters as [Hdot Hslash].
  assert (Hp : p = tmp_name ses ++ 0x2E%N :: ext).
  { unfold p, tmp_path. rewrite Hname.
    now rewrite (splitext_ext_of_name stem ext Hdot Hslash Hstem). }
  split; [exact Hp|]. split.
  - intros Hpdf Hview. apply extract_valid_pdf.
    exists (upload_data resume). split; [apply lookup_insert_eq|].
    rewrite Hp, lower_with_extension, Hpdf. split; [|split; [|exact Hview]].
    + unfold endswith. rewrite rev_app_distr. reflexivity.
    + apply (endswith_app (lower (tmp_name ses)) (lit ".pdf")).
  - intros Hdocx Hview. apply extract_valid_docx.
    exists (upload_data resume). split; [apply lookup_insert_eq|].
    rewrite Hp, lower_with_extension, Hdocx. split; [|exact Hview].
    apply (endswith_app (lower (tmp_name ses)) (lit ".docx")).
Qed.

Lemma upload_extension_selects_library_witness :
  let resume := Upload (lit "My.CV.PDF")
                  (File (inl (lit "File is not a zip file"))
                        (inr [lit "Python developer"])) in
  let ses := Session sample_settings (fun _ => inr sample_response)
               (Some resume) (Some sample_jd) true (lit "/tmp/tmpk3x9") in
  upload_name resume = lit "My.CV" ++ 0x2E%N :: lit "PDF"
  /\ tmp_path ses resume = lit "/tmp/tmpk3x9.PDF"
  /\ result_of (extract_text_from_file (tmp_path ses resume)
                  (<[tmp_path ses resume := upload_data resume]> ∅))
     = Return (lit "Python developer").
Proof.
  intros resume ses.
  assert (Hname : upload_name resume = lit "My.CV" ++ 0x2E%N :: lit "PDF")
    by reflexivity.
  destruct (upload_extension_selects_library ses resume (lit "My.CV") (lit "PDF")
              [lit "Python developer"] ∅ Hname eq_refl (or_introl eq_refl))
    as (Hp & Hpdf & _).
  split; [exact Hname|]. split; [exact Hp|].
  exact (Hpdf eq_refl eq_refl).
Defined.

(** X22: the self-test under [__main__], case by case.  Without a
    secrets file it prints one error line and sends nothing, whatever the
    environment holds; so it does with a secrets file and no usable key.
    With a key it prints that the model is initialized and sends exactly
    one request, for the two sample texts; then it prints the response,
    or one error line: for the encoding error where the response cannot
    be printed, for the failure where the call failed.  It ends in an
    exception in one case only: the call failed with a text that cannot
    be printed.  The check for empty inputs is never what fails. *)
Theorem self_test_outcomes (cfg : settings) (gemini : hosted_model)
    (fs : gmap str file) :
  let prompt := build_prompt SelfTest.sample_resume SelfTest.sample_jd in
  SelfTest.main cfg gemini fs
  = match secrets_toml cfg with
    | None =>
        (Return tt, [SelfTest.error_line (diagnostic SecretNotFoundError)], [])
    | Some entries =>
        match match entries !! "GEMINI_API_KEY"%string with
              | Some key => Some key
              | None => environ cfg !! "GEMINI_API_KEY"%string
              end with
        | Some (_ :: _) =>
            match gemini prompt with
            | inr text =>
                (Return tt,
                 [ SelfTest.initialized_line; SelfTest.test_result_line;
                   if encodable text then text
                   else SelfTest.error_line unencodable ],
                 [ApiRequest prompt])
            | inl msg =>
                if encodable msg
                then (Return tt,
                      [ SelfTest.initialized_line;
                        SelfTest.error_line
                          (Exn PlainException (api_error_prefix ++ msg)) ],
                      [ApiRequest prompt])
                else (Raise unencodable, [SelfTest.initialized_line],
                      [ApiRequest prompt])
            end
        | _ =>
            (Return tt, [SelfTest.error_line (Exn ValueError key_missing)], [])
        end
    end.
Proof.
  intros prompt. unfold SelfTest.main, SelfTest.attempt, init, lookup_api_key.
  destruct (secrets_toml cfg) as [entries|]; [|reflexivity].
  destruct (match entries !! "GEMINI_API_KEY"%string with
            | Some key => Some key
            | None => environ cfg !! "GEMINI_API_KEY"%string
            end) as [[|c key]|]; try reflexivity.
  cbn [truthy_str ret].
  change (SelfTest.print SelfTest.initialized_line)
    with (@Return unit tt, [SelfTest.initialized_line]).
  cbv beta iota.
  rewrite screen_resume_nonempty by discriminate.
  cbn [model]. fold prompt.
  destruct (gemini prompt) as [msg|text].
  - cbn [is_Exception exn_cls]. cbv iota. unfold SelfTest.print, SelfTest.error_line.
    cbn [exn_str]. rewrite !encodable_app.
    destruct (encodable msg); reflexivity.
  - change (SelfTest.print SelfTest.test_result_line)
      with (@Return unit tt, [SelfTest.test_result_line]).
    cbv beta iota. unfold SelfTest.print.
    destruct (encodable text); reflexivity.
Qed.

End ScreeningMore.
